(** * The ImGui-to-host rendering bridge ([selaura::renderer])

    A shallow embedding of [renderer.cpp]: the font texture upload
    ([load_fonts]), its invalidation flag ([set_textures_unloaded]), the
    per-frame display size sync ([new_frame]), the draw-data transcoder
    ([render_draw_data]) and the rectangle helpers.

    The renderer mutates its own fields, the toolkit's [ImGuiIO] and the host
    engine (texture group, tessellator, mesh flush).  All of that is one
    [World] record threaded through a state monad; host calls are appended to
    a log in the order the code makes them.  A read that C++ leaves undefined
    (an index outside a buffer, a null texture dereferenced) makes the run
    [None]. *)

From Stdlib Require Import ZArith String Lia.
From Stdlib Require SpecFloat.
From stdpp Require Import base option list.

Local Open Scope Z_scope.

(** ** Scalars *)

(** C++ [float].  The renderer only divides, adds, passes floats on and casts
    them to [ImU32]; the arithmetic itself is the platform's and is taken as
    an interface.  The data types depend on the carrier only. *)
Class FloatType : Type := float : Type.

Class Float32 `{FloatType} : Type := {
  fdiv : float -> float -> float;
  fadd : float -> float -> float;
  f_zero : float;                      (* 0.0f *)
  f_one : float;                       (* 1.0f *)
  float_to_ImU32 : float -> Z          (* (ImU32) f *)
}.

(** [unsigned int] arithmetic is modulo 2^32. *)
Definition wrap32 (z : Z) : Z := z mod 2 ^ 32.

(** [int] arithmetic.  C++ leaves signed overflow undefined; the target
    computes in two's complement, and the model follows the target: the
    result is the representative in [-2^31, 2^31). *)
Definition int_wrap (z : Z) : Z := (z + 2 ^ 31) mod 2 ^ 32 - 2 ^ 31.

(** [IM_COL32(R,G,B,A)]: the four channels packed A:B:G:R, each cast to
    [ImU32] first. *)
Definition IM_COL32 (r g b a : Z) : Z :=
  Z.lor (Z.lor (Z.lor (wrap32 (Z.shiftl (wrap32 a) 24))
                      (wrap32 (Z.shiftl (wrap32 b) 16)))
               (wrap32 (Z.shiftl (wrap32 g) 8)))
        (wrap32 (Z.shiftl (wrap32 r) 0)).

Section Model.
Context {FT : FloatType} {F32 : Float32}.

(** ** Toolkit and host data *)

Record ImVec2 := mkImVec2 { vx : float; vy : float }.

Record vec3 := mkVec3 { x3 : float; y3 : float; z3 : float }.
Record vec4 := mkVec4 { x4 : float; y4 : float; z4 : float; w4 : float }.

(** [glm::vec4(color, 1.0f)] *)
Definition vec4_of_vec3 (c : vec3) (w : float) : vec4 :=
  mkVec4 (x3 c) (y3 c) (z3 c) w.

Record ImDrawVert := mkImDrawVert {
  pos : ImVec2;
  uv : ImVec2;
  col : Z
}.

(** Modelled from the spec: the declaration of the toolkit's [ImDrawCmd] is
    not among the sources.  A draw command names a contiguous range of its
    list's index buffer: [ElemCount] indices starting at [IdxOffset]. *)
Record ImDrawCmd := mkImDrawCmd {
  ElemCount : Z;
  IdxOffset : Z
}.

Record ImDrawList := mkImDrawList {
  CmdBuffer : list ImDrawCmd;
  IdxBuffer : list Z;
  VtxBuffer : list ImDrawVert
}.

Record ImDrawData := mkImDrawData {
  CmdListsCount : Z;
  CmdLists : list ImDrawList
}.

(** [mce::TexturePtr]: [mClientTexture] is a pointer, [None] when null. *)
Record TexturePtr := mkTexturePtr { mClientTexture : option Z }.

Inductive TextureFormat := R8G8B8A8_UNORM_SRGB.
Inductive ColorSpace := sRGB.
Inductive ImageType := Texture2D.
Inductive PrimitiveMode := TriangleList.

Record ImageDescription := mkImageDescription {
  img_width : Z;
  img_height : Z;
  img_format : TextureFormat;
  img_colorspace : ColorSpace;
  img_type : ImageType;
  img_array_size : Z
}.

Record Blob := mkBlob { blob_data : list Z; blob_size : Z }.

Record ImageBuffer := mkImageBuffer {
  image_blob : Blob;
  image_description : ImageDescription
}.

(** What the renderer reads from [MinecraftUIRenderContext]. *)
Record MinecraftUIRenderContext := mkCtx {
  getScreenSize : ImVec2;      (* getClientInstance()->getGuiData()->getScreenSize() *)
  getGuiScale : float;         (* getClientInstance()->getGuiData()->getGuiScale() *)
  ctx_getTexture : string -> bool -> TexturePtr
}.

(** Calls into the host engine, as the log records them. *)
Inductive Call :=
| uploadTexture (resource : string) (image : ImageBuffer)
| getTexture (resource : string) (force_reload : bool)
| tess_begin (mode : PrimitiveMode) (reserved : Z)
| tess_color (c : Z)
| tess_vertexUV (x y z u v : float)
| createMaterial (name : string)
| renderMeshImmediately (material : string) (texture : Z).

(** Primitives appended to the toolkit's background draw list.  How the
    toolkit turns that list into part of a later frame's draw data is its
    own business and is not modelled: the list is kept apart from the
    [ImDrawList] values of an [ImDrawData], and nothing below relates the
    two. *)
Inductive DrawPrim :=
| AddRect (p_min p_max : ImVec2) (c : Z) (rounding : float) (flags : Z)
          (thickness : float)
| AddRectFilled (p_min p_max : ImVec2) (c : Z) (rounding : float) (flags : Z).

Record ImFontAtlas := mkImFontAtlas {
  TexPixelsRGBA32 : list Z;
  TexWidth : Z;
  TexHeight : Z;
  TexID_is_texturePtr : bool   (* TexID == (void* )&renderer::texturePtr *)
}.

Record World := mkWorld {
  textures_unloaded : bool;            (* renderer::textures_unloaded *)
  texturePtr : TexturePtr;             (* static renderer::texturePtr *)
  DisplaySize : ImVec2;                (* ImGui::GetIO().DisplaySize *)
  Fonts : ImFontAtlas;                 (* ImGui::GetIO().Fonts *)
  AntiAliasedLines : bool;             (* ImGui::GetStyle() *)
  AntiAliasedFill : bool;
  background : list DrawPrim;          (* ImGui::GetBackgroundDrawList() *)
  calls : list Call                    (* host calls so far, oldest first *)
}.

Definition with_textures_unloaded (b : bool) (w : World) : World :=
  mkWorld b (texturePtr w) (DisplaySize w) (Fonts w) (AntiAliasedLines w)
          (AntiAliasedFill w) (background w) (calls w).

Definition with_texturePtr (t : TexturePtr) (w : World) : World :=
  mkWorld (textures_unloaded w) t (DisplaySize w) (Fonts w)
          (AntiAliasedLines w) (AntiAliasedFill w) (background w) (calls w).

Definition with_DisplaySize (d : ImVec2) (w : World) : World :=
  mkWorld (textures_unloaded w) (texturePtr w) d (Fonts w)
          (AntiAliasedLines w) (AntiAliasedFill w) (background w) (calls w).

Definition with_Fonts (f : ImFontAtlas) (w : World) : World :=
  mkWorld (textures_unloaded w) (texturePtr w) (DisplaySize w) f
          (AntiAliasedLines w) (AntiAliasedFill w) (background w) (calls w).

Definition with_style (lines fill : bool) (w : World) : World :=
  mkWorld (textures_unloaded w) (texturePtr w) (DisplaySize w) (Fonts w)
          lines fill (background w) (calls w).

Definition with_background (b : list DrawPrim) (w : World) : World :=
  mkWorld (textures_unloaded w) (texturePtr w) (DisplaySize w) (Fonts w)
          (AntiAliasedLines w) (AntiAliasedFill w) b (calls w).

Definition with_calls (cs : list Call) (w : World) : World :=
  mkWorld (textures_unloaded w) (texturePtr w) (DisplaySize w) (Fonts w)
          (AntiAliasedLines w) (AntiAliasedFill w) (background w) cs.

(** ** The monad: state over [World], [None] for undefined behaviour *)

Definition M (A : Type) : Type := World -> option (A * World).

#[global] Instance M_ret : MRet M := fun A a w => Some (a, w).
#[global] Instance M_bind : MBind M := fun A B f m w =>
  match m w with
  | Some (a, w') => f a w'
  | None => None
  end.

Definition gets {A} (f : World -> A) : M A := fun w => Some (f w, w).
Definition modify (f : World -> World) : M unit := fun w => Some (tt, f w).
Definition defined {A} (o : option A) : M A :=
  fun w => match o with Some a => Some (a, w) | None => None end.
Definition call (c : Call) : M unit :=
  modify (fun w => with_calls (calls w ++ [c]) w).
Definition draw (p : DrawPrim) : M unit :=
  modify (fun w => with_background (background w ++ [p]) w).

(** The world a run ends in. *)
Definition exec {A} (m : M A) (w : World) : option World := snd <$> m w.

(** [for (int n = from; n < from + count; n++) body(n)] *)
Fixpoint for_count (count : nat) (n : Z) (body : Z -> M unit) : M unit :=
  match count with
  | O => mret tt
  | S count' => body n;; for_count count' (n + 1) body
  end.

Definition for_upto (bound : Z) (body : Z -> M unit) : M unit :=
  for_count (Z.to_nat bound) 0 body.

(** [v[i]] on a buffer; outside the buffer the read is undefined. *)
Definition at_index {A} (v : list A) (i : Z) : option A :=
  if 0 <=? i then v !! Z.to_nat i else None.

(** ** renderer.cpp *)

Definition set_textures_unloaded : M unit :=
  modify (with_textures_unloaded false).

(** [io.Fonts->GetTexDataAsRGBA32(&pixels, &width, &height, &bytesPerPixel)] *)
Definition GetTexDataAsRGBA32 (f : ImFontAtlas) : list Z * Z * Z * Z :=
  (TexPixelsRGBA32 f, TexWidth f, TexHeight f, 4).

Definition load_fonts (ctx : MinecraftUIRenderContext) : M unit :=
  fonts ← gets Fonts;
  let '(pixels, width, height, bytesPerPixel) := GetTexDataAsRGBA32 fonts in
  let blob :=
    mkBlob pixels (int_wrap (int_wrap (width * height) * bytesPerPixel)) in
  let description :=
    mkImageDescription width height R8G8B8A8_UNORM_SRGB sRGB Texture2D 1 in
  let imageBuffer := mkImageBuffer blob description in
  let resource := "imgui_font"%string in
  call (uploadTexture resource imageBuffer);;
  call (getTexture resource false);;
  modify (with_texturePtr (ctx_getTexture ctx resource false));;
  modify (fun w => with_Fonts
            (mkImFontAtlas (TexPixelsRGBA32 (Fonts w)) (TexWidth (Fonts w))
                           (TexHeight (Fonts w)) true) w);;
  modify (with_textures_unloaded false).

Definition initialize_imgui (ctx : MinecraftUIRenderContext) : M bool :=
  modify (with_style true true);;
  load_fonts ctx;;
  mret true.

Definition new_frame (ctx : MinecraftUIRenderContext) : M unit :=
  let screenSize := getScreenSize ctx in
  modify (fun w => with_DisplaySize (mkImVec2 (vx screenSize) (vy (DisplaySize w))) w);;
  modify (fun w => with_DisplaySize (mkImVec2 (vx (DisplaySize w)) (vy screenSize)) w).

(** The three vertices one iteration of the triangle loop reads:
    [v0 = vtx[idx[i + 2]]], [v1 = vtx[idx[i + 1]]], [v2 = vtx[idx[i + 0]]]. *)
Definition read_triangle (vtx_buffer : list ImDrawVert) (idx_buffer : list Z)
    (i : Z) : option (ImDrawVert * ImDrawVert * ImDrawVert) :=
  i2 ← at_index idx_buffer (wrap32 (i + 2));
  v0 ← at_index vtx_buffer i2;
  i1 ← at_index idx_buffer (wrap32 (i + 1));
  v1 ← at_index vtx_buffer i1;
  i0 ← at_index idx_buffer (wrap32 (i + 0));
  v2 ← at_index vtx_buffer i0;
  mret (v0, v1, v2).

(** [tess->color(v.col); tess->vertexUV(v.pos.x / scale, v.pos.y / scale,
    0.0f, v.uv.x, v.uv.y)] *)
Definition emit_vertex (scale : float) (v : ImDrawVert) : M unit :=
  call (tess_color (col v));;
  call (tess_vertexUV (fdiv (vx (pos v)) scale) (fdiv (vy (pos v)) scale)
                      f_zero (vx (uv v)) (vy (uv v))).

(** [for (unsigned int i = ...; i < cmd.ElemCount; i += 3)], with [fuel]
    bounding the number of iterations. *)
Fixpoint triangle_loop (fuel : nat) (scale : float)
    (vtx_buffer : list ImDrawVert) (idx_buffer : list Z) (elem_count : Z)
    (i : Z) : M unit :=
  match fuel with
  | O => mret tt
  | S fuel' =>
      if i <? elem_count then
        '(v0, v1, v2) ← defined (read_triangle vtx_buffer idx_buffer i);
        emit_vertex scale v0;;
        emit_vertex scale v1;;
        emit_vertex scale v2;;
        triangle_loop fuel' scale vtx_buffer idx_buffer elem_count
                      (wrap32 (i + 3))
      else mret tt
  end.

(** One pass of the inner loop body: a batch for one draw command. *)
Definition render_cmd (scale : float) (cmd_list : ImDrawList)
    (cmd : ImDrawCmd) : M unit :=
  let vtx_buffer := VtxBuffer cmd_list in
  let idx_buffer := IdxBuffer cmd_list in
  call (tess_begin TriangleList 0);;
  triangle_loop (Z.to_nat (ElemCount cmd)) scale vtx_buffer idx_buffer
                (ElemCount cmd) 0;;
  let material := "ui_texture_and_color_blur"%string in
  call (createMaterial material);;
  tex ← gets texturePtr;
  client ← defined (mClientTexture tex);
  call (renderMeshImmediately material client).

Definition render_draw_data (data : ImDrawData)
    (ctx : MinecraftUIRenderContext) : M unit :=
  unloaded ← gets textures_unloaded;
  (if unloaded : bool then load_fonts ctx else mret tt);;
  let scale := getGuiScale ctx in
  for_upto (CmdListsCount data) (fun n =>
    cmd_list ← defined (at_index (CmdLists data) n);
    for_upto (Z.of_nat (length (CmdBuffer cmd_list))) (fun cmd_i =>
      cmd ← defined (at_index (CmdBuffer cmd_list) cmd_i);
      render_cmd scale cmd_list cmd)).

Definition draw_rect (p size : ImVec2) (color : vec4)
    (stroke_width radius : float) : M unit :=
  draw (AddRect (mkImVec2 (vx p) (vy p))
                (mkImVec2 (fadd (vx p) (vx size)) (fadd (vy p) (vy size)))
                (IM_COL32 (float_to_ImU32 (x4 color)) (float_to_ImU32 (y4 color))
                          (float_to_ImU32 (z4 color)) (float_to_ImU32 (w4 color)))
                radius 0 stroke_width).

Definition draw_rect_rgb (p size : ImVec2) (color : vec3)
    (stroke_width radius : float) : M unit :=
  draw_rect p size (vec4_of_vec3 color f_one) stroke_width radius.

Definition draw_filled_rect (p size : ImVec2) (color : vec4) (radius : float)
    (flags : Z) : M unit :=
  draw (AddRectFilled (mkImVec2 (vx p) (vy p))
                (mkImVec2 (fadd (vx p) (vx size)) (fadd (vy p) (vy size)))
                (IM_COL32 (float_to_ImU32 (x4 color)) (float_to_ImU32 (y4 color))
                          (float_to_ImU32 (z4 color)) (float_to_ImU32 (w4 color)))
                radius flags).

(** The [glm::vec3] overload.  Its call passes four arguments, so the
    [glm::vec4] overload runs with the default value its declaration gives
    [flags]; that declaration is in [renderer.hpp], which is not among the
    sources, so the default is a parameter. *)
Definition draw_filled_rect_rgb (default_flags : Z) (p size : ImVec2)
    (color : vec3) (radius : float) (flags : Z) : M unit :=
  draw_filled_rect p size (vec4_of_vec3 color f_one) radius default_flags.

End Model.

(** ** What a run adds to the log *)

Section Denotation.
Context {FT : FloatType} {F32 : Float32}.

Definition add_calls (cs : list Call) (w : World) : World :=
  with_calls (calls w ++ cs) w.

Definition vertex_calls (scale : float) (v : ImDrawVert) : list Call :=
  [tess_color (col v);
   tess_vertexUV (fdiv (vx (pos v)) scale) (fdiv (vy (pos v)) scale) f_zero
                 (vx (uv v)) (vy (uv v))].

Definition triangle_calls (scale : float)
    (t : ImDrawVert * ImDrawVert * ImDrawVert) : list Call :=
  let '(v0, v1, v2) := t in
  vertex_calls scale v0 ++ vertex_calls scale v1 ++ vertex_calls scale v2.

(** The values [i] takes in the triangle loop: 0, 3, 6, ... below
    [elem_count]. *)
Definition triangle_starts (from count : nat) : list Z :=
  (fun k => 3 * Z.of_nat k) <$> seq from count.

Definition iterations (elem_count : Z) : nat :=
  Z.to_nat ((elem_count + 2) / 3).

Fixpoint read_all {A B} (f : A -> option B) (l : list A) : option (list B) :=
  match l with
  | [] => Some []
  | a :: l' => b ← f a; bs ← read_all f l'; Some (b :: bs)
  end.

(** The triangles the loop of one command reads, in the order it reads
    them. *)
Definition cmd_triangles (cmd_list : ImDrawList) (cmd : ImDrawCmd)
    : option (list (ImDrawVert * ImDrawVert * ImDrawVert)) :=
  read_all (read_triangle (VtxBuffer cmd_list) (IdxBuffer cmd_list))
           (triangle_starts 0 (iterations (ElemCount cmd))).

(** The calls of one batch: begin, the vertices, material, flush. *)
Definition cmd_batch (scale : float) (client : Z)
    (tris : list (ImDrawVert * ImDrawVert * ImDrawVert)) : list Call :=
  tess_begin TriangleList 0 :: concat (triangle_calls scale <$> tris)
    ++ [createMaterial "ui_texture_and_color_blur"%string;
        renderMeshImmediately "ui_texture_and_color_blur"%string client].

(** The calls of one [load_fonts]. *)
Definition load_fonts_calls (fonts : ImFontAtlas) : list Call :=
  [uploadTexture "imgui_font"%string
     (mkImageBuffer
        (mkBlob (TexPixelsRGBA32 fonts)
                (int_wrap (int_wrap (TexWidth fonts * TexHeight fonts) * 4)))
        (mkImageDescription (TexWidth fonts) (TexHeight fonts)
                            R8G8B8A8_UNORM_SRGB sRGB Texture2D 1));
   getTexture "imgui_font"%string false].

(** [for (x : l) f(x)], the loops over an [ImVector] once the index reads are
    resolved. *)
Fixpoint for_each {A} (l : list A) (f : A -> M unit) : M unit :=
  match l with
  | [] => mret tt
  | a :: l' => f a;; for_each l' f
  end.

(** A computation that, whatever the log, only appends [cs] to it, as long
    as the bound texture is [tex]. *)
Definition appends (tex : TexturePtr) (m : M unit) (cs : list Call) : Prop :=
  forall w, texturePtr w = tex -> m w = Some (tt, add_calls cs w).

End Denotation.

Ltac unfold_monad :=
  unfold mbind, mret, M_bind, M_ret, call, draw, modify, gets, defined.

Section Runs.
Context {FT : FloatType} {F32 : Float32}.

Lemma add_calls_nil (w : World) : add_calls [] w = w.
Proof. destruct w. unfold add_calls, with_calls. simpl. by rewrite app_nil_r. Qed.

Lemma add_calls_app (a b : list Call) (w : World) :
  add_calls b (add_calls a w) = add_calls (a ++ b) w.
Proof. unfold add_calls, with_calls. simpl. by rewrite app_assoc. Qed.

Lemma call_run (c : Call) (w : World) : call c w = Some (tt, add_calls [c] w).
Proof. reflexivity. Qed.

Lemma bind_run {A B} (m : M A) (f : A -> M B) (w : World) :
  (m ≫= f) w = match m w with Some (a, w') => f a w' | None => None end.
Proof. reflexivity. Qed.

Lemma defined_run {A} (o : option A) (w : World) :
  defined o w = (fun a => (a, w)) <$> o.
Proof. by destruct o. Qed.

Lemma appends_ret tex : appends tex (mret tt) [].
Proof. intros w _. unfold_monad. by rewrite add_calls_nil. Qed.

Lemma appends_call tex c : appends tex (call c) [c].
Proof. intros w _. reflexivity. Qed.

Lemma appends_seq tex (m1 m2 : M unit) (a b : list Call) :
  appends tex m1 a -> appends tex m2 b -> appends tex (m1;; m2) (a ++ b).
Proof.
  intros H1 H2 w Hw. unfold mbind, M_bind. rewrite (H1 w Hw).
  rewrite H2 by done. by rewrite add_calls_app.
Qed.

Lemma appends_for_each {A} tex (l : list A) (f : A -> M unit)
    (g : A -> list Call) :
  Forall (fun a => appends tex (f a) (g a)) l ->
  appends tex (for_each l f) (concat (g <$> l)).
Proof.
  induction 1 as [|a l Ha _ IH]; simpl.
  - apply appends_ret.
  - by apply appends_seq.
Qed.

Lemma emit_vertex_appends tex scale v :
  appends tex (emit_vertex scale v) (vertex_calls scale v).
Proof. apply (appends_seq tex _ _ [_] [_]); apply appends_call. Qed.

(** *** The counted loops are loops over the buffer *)

Lemma at_index_app_length {A} (l1 l2 : list A) (a : A) :
  at_index (l1 ++ a :: l2) (Z.of_nat (length l1)) = Some a.
Proof.
  unfold at_index. destruct (Z.leb_spec 0 (Z.of_nat (length l1))); [|lia].
  rewrite Nat2Z.id. by rewrite list_lookup_middle.
Qed.

Lemma for_count_buffer {A} (l1 l2 l3 : list A) (f : A -> M unit) (w : World) :
  for_count (length l2) (Z.of_nat (length l1))
    (fun i => x ← defined (at_index (l1 ++ l2 ++ l3) i); f x) w
  = for_each l2 f w.
Proof.
  revert l1 w. induction l2 as [|a l2 IH]; intros l1 w; simpl; [done|].
  rewrite !bind_run, defined_run, at_index_app_length.
  simpl. destruct (f a w) as [[[] w1]|]; [|done].
  replace (Z.of_nat (length l1) + 1) with (Z.of_nat (length (l1 ++ [a])))
    by (rewrite length_app; simpl; lia).
  replace (l1 ++ a :: l2 ++ l3) with ((l1 ++ [a]) ++ l2 ++ l3)
    by by rewrite <- app_assoc.
  apply IH.
Qed.

(** A loop counting up to the size of the buffer visits every element. *)
Lemma for_upto_buffer {A} (l : list A) (f : A -> M unit) (w : World) :
  for_upto (Z.of_nat (length l))
    (fun i => x ← defined (at_index l i); f x) w
  = for_each l f w.
Proof.
  unfold for_upto. rewrite Nat2Z.id.
  rewrite <- (for_count_buffer [] l [] f w). simpl. by rewrite app_nil_r.
Qed.

(** A loop counting up to a separate count, within the buffer, visits that
    many leading elements. *)
Lemma for_upto_prefix {A} (l : list A) (count : Z) (f : A -> M unit)
    (w : World) :
  count <= Z.of_nat (length l) ->
  for_upto count (fun i => x ← defined (at_index l i); f x) w
  = for_each (take (Z.to_nat count) l) f w.
Proof.
  intros Hc. unfold for_upto.
  rewrite <- (for_count_buffer [] (take (Z.to_nat count) l)
                (drop (Z.to_nat count) l) f w).
  simpl. rewrite take_drop, length_take. f_equal. lia.
Qed.

End Runs.

Section TriangleLoop.
Context {FT : FloatType} {F32 : Float32}.

Lemma wrap32_small (z : Z) : 0 <= z < 2 ^ 32 -> wrap32 z = z.
Proof. intros Hz. unfold wrap32. by apply Z.mod_small. Qed.

Lemma iterations_bounds (elem_count : Z) :
  elem_count <= 3 * Z.of_nat (iterations elem_count) /\
  3 * Z.of_nat (iterations elem_count) < Z.max elem_count 0 + 3.
Proof.
  unfold iterations.
  pose proof (Z.div_mod (elem_count + 2) 3 ltac:(lia)) as Hd.
  pose proof (Z.mod_pos_bound (elem_count + 2) 3 ltac:(lia)) as Hm.
  set (q := (elem_count + 2) / 3) in *.
  set (r := (elem_count + 2) mod 3) in *. lia.
Qed.

Lemma iterations_multiple (n : Z) : 0 <= n -> iterations (3 * n) = Z.to_nat n.
Proof.
  intros Hn. unfold iterations. f_equal.
  symmetry. apply (Z.div_unique _ _ _ 2); lia.
Qed.

(** With [elem_count] an [unsigned int], the loop leaves through its
    condition: the fuel is never what stops it, [i] never wraps, and the
    iterations are those of [triangle_starts]. *)
Lemma triangle_loop_run scale vtx idx (elem_count : Z) :
  elem_count < 2 ^ 32 ->
  forall (n k fuel : nat) (w : World),
    (k + n = iterations elem_count)%nat -> (n <= fuel)%nat ->
    triangle_loop fuel scale vtx idx elem_count (3 * Z.of_nat k) w
    = (fun tris => (tt, add_calls (concat (triangle_calls scale <$> tris)) w))
        <$> read_all (read_triangle vtx idx) (triangle_starts k n).
Proof.
  intros HE. pose proof (iterations_bounds elem_count) as [Hlo Hhi].
  induction n as [|n IH]; intros k fuel w Hk Hfuel.
  - simpl. rewrite add_calls_nil.
    destruct fuel as [|fuel]; simpl; [done|].
    destruct (Z.ltb_spec (3 * Z.of_nat k) elem_count); [lia|done].
  - destruct fuel as [|fuel]; [lia|]. simpl.
    destruct (Z.ltb_spec (3 * Z.of_nat k) elem_count); [|lia].
    rewrite bind_run, defined_run.
    destruct (read_triangle vtx idx (3 * Z.of_nat k)) as [[[v0 v1] v2]|];
      simpl; [|done].
    rewrite bind_run, (emit_vertex_appends (texturePtr w)) by done.
    rewrite bind_run, (emit_vertex_appends (texturePtr w)) by done.
    rewrite bind_run, (emit_vertex_appends (texturePtr w)) by done.
    rewrite !add_calls_app.
    rewrite wrap32_small by lia.
    replace (3 * Z.of_nat k + 3) with (3 * Z.of_nat (S k)) by lia.
    rewrite IH by lia.
    destruct (read_all _ _) as [tris|]; simpl; [|done].
    by rewrite add_calls_app.
Qed.

Lemma render_cmd_run scale (cmd_list : ImDrawList) (cmd : ImDrawCmd)
    (w : World) :
  ElemCount cmd < 2 ^ 32 ->
  render_cmd scale cmd_list cmd w
  = tris ← cmd_triangles cmd_list cmd;
    client ← mClientTexture (texturePtr w);
    Some (tt, add_calls (cmd_batch scale client tris) w).
Proof.
  intros HE. unfold render_cmd, cmd_triangles.
  rewrite bind_run, call_run, bind_run.
  pose proof (iterations_bounds (ElemCount cmd)) as [Hlo Hhi].
  rewrite (triangle_loop_run _ _ _ _ HE (iterations (ElemCount cmd)) 0); [|done|].
  2:{ destruct (Z.le_gt_cases (ElemCount cmd) 0) as [Hle|Hgt].
      - lia.
      - lia. }
  destruct (read_all _ _) as [tris|]; simpl; [|done].
  rewrite bind_run, call_run, bind_run. unfold gets. rewrite bind_run, defined_run.
  simpl. destruct (mClientTexture (texturePtr w)) as [client|]; simpl; [|done].
  rewrite call_run, !add_calls_app. unfold cmd_batch. simpl.
  done.
Qed.

End TriangleLoop.

(** ** The upstream contract and the source triangles *)

Section Contract.
Context {FT : FloatType} {F32 : Float32}.

(** The lists the outer loop visits: the first [CmdListsCount]. *)
Definition visited_lists (data : ImDrawData) : list ImDrawList :=
  take (Z.to_nat (CmdListsCount data)) (CmdLists data).

(** The commands in paint order, each with the list whose buffers it
    indexes. *)
Definition source_commands (data : ImDrawData)
    : list (ImDrawList * ImDrawCmd) :=
  cmd_list ← visited_lists data;
  (fun cmd => (cmd_list, cmd)) <$> CmdBuffer cmd_list.

Definition index_ok (cmd_list : ImDrawList) (ix : Z) : bool :=
  (0 <=? ix) && (ix <? Z.of_nat (length (VtxBuffer cmd_list))).

(** A command describes whole triangles inside the index buffer. *)
Definition cmd_ok (cmd_list : ImDrawList) (cmd : ImDrawCmd) : bool :=
  (0 <=? ElemCount cmd) && (ElemCount cmd mod 3 =? 0)
  && (0 <=? IdxOffset cmd)
  && (IdxOffset cmd + ElemCount cmd <=? Z.of_nat (length (IdxBuffer cmd_list))).

Definition list_ok (cmd_list : ImDrawList) : bool :=
  (Z.of_nat (length (IdxBuffer cmd_list)) <? 2 ^ 32)
  && forallb (index_ok cmd_list) (IdxBuffer cmd_list)
  && forallb (cmd_ok cmd_list) (CmdBuffer cmd_list).

Definition data_ok (data : ImDrawData) : bool :=
  (CmdListsCount data <=? Z.of_nat (length (CmdLists data)))
  && forallb list_ok (visited_lists data).

(** The texture a frame flushes with: the one [load_fonts] fetches when the
    flag is set, the stored one otherwise. *)
Definition texture_in_use (ctx : MinecraftUIRenderContext) (w : World)
    : TexturePtr :=
  if textures_unloaded w then ctx_getTexture ctx "imgui_font"%string false
  else texturePtr w.

Definition input_ok (data : ImDrawData) (ctx : MinecraftUIRenderContext)
    (w : World) : bool :=
  data_ok data && bool_decide (is_Some (mClientTexture (texture_in_use ctx w))).

(** Consecutive index triplets [(a, b, c)] of a run of indices. *)
Fixpoint triplets (l : list Z) : list (Z * Z * Z) :=
  match l with
  | a :: b :: c :: r => (a, b, c) :: triplets r
  | _ => []
  end.

(** The source triplets of a command: those of the index range it names. *)
Definition source_triplets (cmd_list : ImDrawList) (cmd : ImDrawCmd)
    : list (Z * Z * Z) :=
  triplets (take (Z.to_nat (ElemCount cmd))
                 (drop (Z.to_nat (IdxOffset cmd)) (IdxBuffer cmd_list))).

(** The triplets at the head of the index buffer, [ElemCount] indices
    long. *)
Definition leading_triplets (cmd_list : ImDrawList) (cmd : ImDrawCmd)
    : list (Z * Z * Z) :=
  triplets (take (Z.to_nat (ElemCount cmd)) (IdxBuffer cmd_list)).

(** A triplet [(a, b, c)] with its winding reversed:
    [vertex[c], vertex[b], vertex[a]]. *)
Definition reversed_triangle (vtx : list ImDrawVert) (t : Z * Z * Z)
    : option (ImDrawVert * ImDrawVert * ImDrawVert) :=
  let '(a, b, c) := t in
  va ← at_index vtx a; vb ← at_index vtx b; vc ← at_index vtx c;
  Some (vc, vb, va).

(** The world after [load_fonts]. *)
Definition load_fonts_world (ctx : MinecraftUIRenderContext) (w : World)
    : World :=
  mkWorld false (ctx_getTexture ctx "imgui_font"%string false) (DisplaySize w)
          (mkImFontAtlas (TexPixelsRGBA32 (Fonts w)) (TexWidth (Fonts w))
                         (TexHeight (Fonts w)) true)
          (AntiAliasedLines w) (AntiAliasedFill w) (background w)
          (calls w ++ load_fonts_calls (Fonts w)).

(** The world in which the loops of [render_draw_data] start. *)
Definition refreshed (ctx : MinecraftUIRenderContext) (w : World) : World :=
  if textures_unloaded w then load_fonts_world ctx w else w.

(** The batch of one command, as the code fills it. *)
Definition code_batch (scale : float) (client : Z)
    (lc : ImDrawList * ImDrawCmd) : list Call :=
  cmd_batch scale client (default [] (cmd_triangles lc.1 lc.2)).

Definition is_upload (c : Call) : bool :=
  match c with uploadTexture _ _ => true | _ => false end.

Definition is_texture_call (c : Call) : bool :=
  match c with
  | uploadTexture _ _ | getTexture _ _ | renderMeshImmediately _ _ => true
  | _ => false
  end.

Definition is_tessellator_call (c : Call) : bool :=
  match c with
  | tess_begin _ _ | tess_color _ | tess_vertexUV _ _ _ _ _ => true
  | _ => false
  end.

Definition is_begin (c : Call) : bool :=
  match c with tess_begin _ _ => true | _ => false end.

Definition is_flush (c : Call) : bool :=
  match c with renderMeshImmediately _ _ => true | _ => false end.

End Contract.

Section ContractLemmas.
Context {FT : FloatType} {F32 : Float32}.

Lemma load_fonts_run ctx (w : World) :
  load_fonts ctx w = Some (tt, load_fonts_world ctx w).
Proof.
  unfold load_fonts, load_fonts_world, load_fonts_calls. unfold_monad. simpl.
  unfold with_textures_unloaded, with_Fonts, with_texturePtr, with_calls.
  simpl. by rewrite <- app_assoc.
Qed.

Lemma read_all_length {A B} (f : A -> option B) (l : list A) (bs : list B) :
  read_all f l = Some bs -> length bs = length l.
Proof.
  revert bs. induction l as [|a l IH]; intros bs; simpl.
  - by intros [= <-].
  - destruct (f a) as [b|]; simpl; [|done].
    destruct (read_all f l) as [bs'|]; simpl; [|done].
    intros [= <-]. simpl. f_equal. by apply IH.
Qed.

Lemma read_all_defined {A B} (f : A -> option B) (l : list A) :
  Forall (fun a => is_Some (f a)) l -> is_Some (read_all f l).
Proof.
  induction 1 as [|a l [b Hb] _ [bs Hbs]]; simpl; [by eexists|].
  rewrite Hb, Hbs. by eexists.
Qed.

Lemma triplets_length (n : nat) (l : list Z) :
  length l = (3 * n)%nat -> length (triplets l) = n.
Proof.
  revert l. induction n as [|n IH]; intros l Hl.
  - by destruct l.
  - destruct l as [|a [|b [|c r]]]; simpl in Hl; try lia.
    simpl. f_equal. apply IH. lia.
Qed.

Lemma triplets_Forall (P : Z -> Prop) (l : list Z) :
  Forall P l ->
  Forall (fun t => P t.1.1 /\ P t.1.2 /\ P t.2) (triplets l).
Proof.
  induction l as [l IH] using (induction_ltof1 _ (@length Z)).
  unfold ltof in IH. intros Hl.
  destruct l as [|a [|b [|c r]]]; simpl; try constructor.
  - simpl. inversion Hl as [|? ? ? Hl1]; inversion Hl1 as [|? ? ? Hl2];
      inversion Hl2; subst. auto.
  - apply IH; [simpl; lia|].
    inversion Hl as [|? ? ? Hl1]; inversion Hl1 as [|? ? ? Hl2];
      by inversion Hl2.
Qed.

Lemma at_index_ok {A} (l : list A) (i : Z) :
  0 <= i < Z.of_nat (length l) -> is_Some (at_index l i).
Proof.
  intros Hi. unfold at_index. destruct (Z.leb_spec 0 i); [|lia].
  apply lookup_lt_is_Some. lia.
Qed.

Lemma at_index_offset {A} (l1 l2 : list A) (i : Z) :
  0 <= i -> at_index (l1 ++ l2) (Z.of_nat (length l1) + i) = at_index l2 i.
Proof.
  intros Hi. unfold at_index.
  destruct (Z.leb_spec 0 (Z.of_nat (length l1) + i)); [|lia].
  destruct (Z.leb_spec 0 i); [|lia].
  rewrite Z2Nat.inj_add, Nat2Z.id by lia.
  rewrite lookup_app_r by lia. f_equal. lia.
Qed.

End ContractLemmas.

Section Winding.
Context {FT : FloatType} {F32 : Float32}.

Lemma read_all_cons {A B} (f : A -> option B) (a : A) (l : list A) :
  read_all f (a :: l) = b ← f a; bs ← read_all f l; Some (b :: bs).
Proof. reflexivity. Qed.

Lemma triangle_starts_S (k n : nat) :
  triangle_starts k (S n) = 3 * Z.of_nat k :: triangle_starts (S k) n.
Proof. reflexivity. Qed.

(** One iteration at [i = 3k], with [pre] (of length [3k]) behind it, reads
    the triplet that follows [pre], last index first. *)
Lemma read_triangle_at vtx (pre rest : list Z) (a b c : Z) (k : nat) :
  length pre = (3 * k)%nat -> 3 * Z.of_nat k + 2 < 2 ^ 32 ->
  read_triangle vtx (pre ++ a :: b :: c :: rest) (3 * Z.of_nat k)
  = reversed_triangle vtx (a, b, c).
Proof.
  intros Hpre Hk. unfold read_triangle.
  rewrite !wrap32_small by lia.
  replace (3 * Z.of_nat k) with (Z.of_nat (length pre)) by lia.
  rewrite !at_index_offset by lia. cbn [at_index Z.leb Z.to_nat]. simpl.
  destruct (at_index vtx c), (at_index vtx b), (at_index vtx a); done.
Qed.

(** The loop's reads from [i = 3k] on are the reversed triplets at the head
    of what remains of the index buffer. *)
Lemma read_starts_triplets vtx (n : nat) :
  forall (pre rest : list Z) (k : nat),
    length pre = (3 * k)%nat -> (3 * n <= length rest)%nat ->
    Z.of_nat (length (pre ++ rest)) < 2 ^ 32 ->
    read_all (read_triangle vtx (pre ++ rest)) (triangle_starts k n)
    = read_all (reversed_triangle vtx) (triplets (take (3 * n) rest)).
Proof.
  induction n as [|n IH]; intros pre rest k Hpre Hrest Hlen; [done|].
  destruct rest as [|a [|b [|c rest]]]; simpl in Hrest; try lia.
  replace (3 * S n)%nat with (S (S (S (3 * n)))) by lia.
  rewrite length_app in Hlen. simpl in Hlen.
  rewrite triangle_starts_S. cbn [take triplets]. rewrite !read_all_cons.
  rewrite read_triangle_at by lia.
  specialize (IH (pre ++ [a; b; c]) rest (S k)).
  rewrite <- app_assoc in IH. simpl in IH. rewrite IH; [done| | |].
  - rewrite length_app. simpl. lia.
  - lia.
  - rewrite length_app. simpl. lia.
Qed.

Lemma cmd_ok_range (cmd_list : ImDrawList) (cmd : ImDrawCmd) :
  cmd_ok cmd_list cmd = true ->
  ElemCount cmd = 3 * (ElemCount cmd / 3) /\ 0 <= ElemCount cmd / 3 /\
  0 <= IdxOffset cmd /\
  IdxOffset cmd + ElemCount cmd <= Z.of_nat (length (IdxBuffer cmd_list)).
Proof.
  unfold cmd_ok. rewrite !andb_true_iff.
  intros [[[H0%Z.leb_le Hm%Z.eqb_eq] Ho%Z.leb_le] Hr%Z.leb_le].
  pose proof (Z.div_mod (ElemCount cmd) 3 ltac:(lia)). lia.
Qed.

(** What the code reads for a command: the triplets at the head of the
    list's index buffer, each reversed. *)
Lemma cmd_triangles_leading (cmd_list : ImDrawList) (cmd : ImDrawCmd) :
  Z.of_nat (length (IdxBuffer cmd_list)) < 2 ^ 32 ->
  cmd_ok cmd_list cmd = true ->
  cmd_triangles cmd_list cmd
  = read_all (reversed_triangle (VtxBuffer cmd_list))
             (leading_triplets cmd_list cmd).
Proof.
  intros Hlen (Hm & Hq & Ho & Hr)%cmd_ok_range.
  unfold cmd_triangles, leading_triplets.
  rewrite Hm, iterations_multiple by done.
  rewrite (read_starts_triplets _ _ [] (IdxBuffer cmd_list) 0); [|done|lia|done].
  do 3 f_equal. lia.
Qed.

Lemma reversed_triangle_defined (cmd_list : ImDrawList) (t : Z * Z * Z) :
  index_ok cmd_list t.1.1 = true -> index_ok cmd_list t.1.2 = true ->
  index_ok cmd_list t.2 = true ->
  is_Some (reversed_triangle (VtxBuffer cmd_list) t).
Proof.
  destruct t as [[a b] c]. unfold index_ok. simpl.
  rewrite !andb_true_iff, !Z.leb_le, !Z.ltb_lt. intros Ha Hb Hc.
  destruct (at_index_ok (VtxBuffer cmd_list) a) as [va ->]; [lia|].
  destruct (at_index_ok (VtxBuffer cmd_list) b) as [vb ->]; [lia|].
  destruct (at_index_ok (VtxBuffer cmd_list) c) as [vc ->]; [lia|].
  by eexists.
Qed.

Lemma list_ok_parts (cmd_list : ImDrawList) :
  list_ok cmd_list = true ->
  Z.of_nat (length (IdxBuffer cmd_list)) < 2 ^ 32 /\
  Forall (fun ix => index_ok cmd_list ix = true) (IdxBuffer cmd_list) /\
  Forall (fun cmd => cmd_ok cmd_list cmd = true) (CmdBuffer cmd_list).
Proof.
  unfold list_ok. rewrite !andb_true_iff, Z.ltb_lt, !forallb_forall.
  rewrite !Forall_forall. intros [[? Hi] Hc]. repeat split; [done| |].
  - intros x Hx. apply Hi. by apply list_elem_of_In.
  - intros x Hx. apply Hc. by apply list_elem_of_In.
Qed.

(** Under the contract, every read of a command's loop is defined and the
    loop reads [ElemCount / 3] triangles. *)
Lemma cmd_triangles_defined (cmd_list : ImDrawList) (cmd : ImDrawCmd) :
  list_ok cmd_list = true -> cmd_ok cmd_list cmd = true ->
  exists tris, cmd_triangles cmd_list cmd = Some tris /\
               Z.of_nat (length tris) = ElemCount cmd / 3.
Proof.
  intros (Hlen & Hidx & _)%list_ok_parts Hcmd.
  rewrite cmd_triangles_leading by done.
  apply cmd_ok_range in Hcmd as (Hm & Hq & Ho & Hr).
  destruct (read_all_defined (reversed_triangle (VtxBuffer cmd_list))
              (leading_triplets cmd_list cmd)) as [tris Htris].
  { unfold leading_triplets.
    eapply Forall_impl; [apply triplets_Forall, Forall_take, Hidx|].
    intros t (? & ? & ?). by apply reversed_triangle_defined. }
  exists tris. split; [done|].
  apply read_all_length in Htris. rewrite Htris. unfold leading_triplets.
  rewrite (triplets_length (Z.to_nat (ElemCount cmd / 3))); [lia|].
  rewrite length_take. lia.
Qed.

End Winding.

(** ** The whole frame *)

Section Frame.
Context {FT : FloatType} {F32 : Float32}.

Lemma render_cmd_appends tex (client : Z) scale (cmd_list : ImDrawList)
    (cmd : ImDrawCmd) :
  mClientTexture tex = Some client ->
  list_ok cmd_list = true -> cmd_ok cmd_list cmd = true ->
  appends tex (render_cmd scale cmd_list cmd)
          (code_batch scale client (cmd_list, cmd)).
Proof.
  intros Htex Hl Hc w Hw.
  destruct (cmd_triangles_defined _ _ Hl Hc) as (tris & Htris & _).
  apply list_ok_parts in Hl as (Hlen & _ & _).
  apply cmd_ok_range in Hc as (? & ? & ? & ?).
  rewrite render_cmd_run by lia.
  unfold code_batch. simpl. rewrite Htris, Hw, Htex. done.
Qed.

Lemma cmd_list_appends tex (client : Z) scale (cmd_list : ImDrawList) :
  mClientTexture tex = Some client -> list_ok cmd_list = true ->
  appends tex
    (for_upto (Z.of_nat (length (CmdBuffer cmd_list))) (fun cmd_i =>
       cmd ← defined (at_index (CmdBuffer cmd_list) cmd_i);
       render_cmd scale cmd_list cmd))
    (concat (code_batch scale client
               <$> ((fun cmd => (cmd_list, cmd)) <$> CmdBuffer cmd_list))).
Proof.
  intros Htex Hl w Hw. rewrite for_upto_buffer.
  rewrite <- list_fmap_compose.
  apply (appends_for_each tex _ _
           (fun cmd => code_batch scale client (cmd_list, cmd))); [|done].
  apply list_ok_parts in Hl as Hparts. destruct Hparts as (_ & _ & Hcmds).
  eapply Forall_impl; [exact Hcmds|].
  intros cmd Hcmd. by apply render_cmd_appends.
Qed.

Lemma data_ok_parts (data : ImDrawData) :
  data_ok data = true ->
  CmdListsCount data <= Z.of_nat (length (CmdLists data)) /\
  Forall (fun l => list_ok l = true) (visited_lists data).
Proof.
  unfold data_ok. rewrite andb_true_iff, Z.leb_le, forallb_forall, Forall_forall.
  intros [? Hl]. split; [done|]. intros x Hx. apply Hl. by apply list_elem_of_In.
Qed.

Lemma source_commands_batches scale client (ls : list ImDrawList) :
  concat ((fun l => concat (code_batch scale client
                              <$> ((fun cmd => (l, cmd)) <$> CmdBuffer l)))
            <$> ls)
  = concat (code_batch scale client
              <$> (l ← ls; (fun cmd => (l, cmd)) <$> CmdBuffer l)).
Proof.
  induction ls as [|l ls IH]; [done|].
  rewrite fmap_cons, bind_cons, fmap_app, concat_app, <- IH. done.
Qed.

Lemma draw_loops_appends tex (client : Z) scale (data : ImDrawData) :
  mClientTexture tex = Some client -> data_ok data = true ->
  appends tex
    (for_upto (CmdListsCount data) (fun n =>
       cmd_list ← defined (at_index (CmdLists data) n);
       for_upto (Z.of_nat (length (CmdBuffer cmd_list))) (fun cmd_i =>
         cmd ← defined (at_index (CmdBuffer cmd_list) cmd_i);
         render_cmd scale cmd_list cmd)))
    (concat (code_batch scale client <$> source_commands data)).
Proof.
  intros Htex (Hcount & Hlists)%data_ok_parts w Hw.
  rewrite for_upto_prefix by done.
  unfold source_commands. rewrite <- source_commands_batches.
  apply (appends_for_each tex); [|done].
  eapply Forall_impl; [exact Hlists|].
  intros l Hl. by apply cmd_list_appends.
Qed.

Lemma refreshed_texture ctx (w : World) :
  texturePtr (refreshed ctx w) = texture_in_use ctx w.
Proof. unfold refreshed, texture_in_use. by destruct (textures_unloaded w). Qed.

Lemma input_ok_parts data ctx (w : World) :
  input_ok data ctx w = true ->
  data_ok data = true /\
  exists client, mClientTexture (texture_in_use ctx w) = Some client.
Proof.
  unfold input_ok. rewrite andb_true_iff, bool_decide_eq_true.
  intros [? [client ?]]. eauto.
Qed.

(** Under the contract a frame is defined: the font texture is refreshed if
    the flag was set, then every visited command adds its batch. *)
Lemma render_draw_data_run data ctx (w : World) (client : Z) :
  data_ok data = true ->
  mClientTexture (texture_in_use ctx w) = Some client ->
  render_draw_data data ctx w
  = Some (tt, add_calls (concat (code_batch (getGuiScale ctx) client
                                   <$> source_commands data))
                        (refreshed ctx w)).
Proof.
  intros Hdata Htex. unfold render_draw_data.
  rewrite bind_run. unfold gets. rewrite bind_run.
  assert ((if textures_unloaded w then load_fonts ctx else mret tt) w
          = Some (tt, refreshed ctx w)) as ->.
  { unfold refreshed. destruct (textures_unloaded w); [|done].
    apply load_fonts_run. }
  apply (draw_loops_appends (texture_in_use ctx w)); [done..|].
  apply refreshed_texture.
Qed.

End Frame.

(** ** Reading a log *)

Section Logs.
Context {FT : FloatType} {F32 : Float32}.

(** The coordinates a vertex call carries. *)
Definition vertex_of_call (c : Call)
    : option (float * float * float * float * float) :=
  match c with
  | tess_vertexUV x y z u v => Some (x, y, z, u, v)
  | _ => None
  end.

(** What [render_draw_data] sends for a source vertex: position over the
    scale, depth zero, UV as it is. *)
Definition scaled (scale : float) (sv : ImDrawVert)
    : float * float * float * float * float :=
  (fdiv (vx (pos sv)) scale, fdiv (vy (pos sv)) scale, f_zero,
   vx (uv sv), vy (uv sv)).

Definition triangle_vertices (t : ImDrawVert * ImDrawVert * ImDrawVert)
    : list ImDrawVert :=
  [t.1.1; t.1.2; t.2].

(** The source vertices a frame reads, in the order it reads them. *)
Definition read_vertices (data : ImDrawData) : list ImDrawVert :=
  lc ← source_commands data;
  t ← default [] (cmd_triangles lc.1 lc.2);
  triangle_vertices t.

(** Calls that build or flush geometry. *)
Definition is_geometry (c : Call) : bool :=
  match c with
  | tess_begin _ _ | tess_color _ | tess_vertexUV _ _ _ _ _
  | createMaterial _ | renderMeshImmediately _ _ => true
  | _ => false
  end.

(** A log cut after each flush: the batches the host renders. *)
Fixpoint split_batches (cur : list Call) (cs : list Call)
    : list (list Call) :=
  match cs with
  | [] => match cur with [] => [] | _ => [cur] end
  | c :: cs' =>
      if is_flush c then (cur ++ [c]) :: split_batches [] cs'
      else split_batches (cur ++ [c]) cs'
  end.

Definition count (p : Call -> bool) (cs : list Call) : nat :=
  length (List.filter p cs).

(** Uploads a computation performs from [w], when it is defined there. *)
Definition uploads_during {A} (m : M A) (w : World) : option nat :=
  w' ← exec m w; Some (count is_upload (calls w') - count is_upload (calls w))%nat.

Lemma count_app p (a b : list Call) :
  count p (a ++ b) = (count p a + count p b)%nat.
Proof. unfold count. by rewrite List.filter_app, length_app. Qed.

Lemma count_concat p (n : nat) (bs : list (list Call)) :
  Forall (fun b => count p b = n) bs ->
  count p (concat bs) = (n * length bs)%nat.
Proof.
  induction 1 as [|b bs Hb _ IH]; [unfold count; simpl; lia|].
  rewrite concat_cons, count_app, Hb, IH. simpl. lia.
Qed.

Lemma omap_vertex_triangle scale t :
  omap vertex_of_call (triangle_calls scale t)
  = scaled scale <$> triangle_vertices t.
Proof. by destruct t as [[v0 v1] v2]. Qed.

Lemma omap_vertex_triangles scale tris :
  omap vertex_of_call (concat (triangle_calls scale <$> tris))
  = scaled scale <$> (tris ≫= triangle_vertices).
Proof.
  induction tris as [|t tris IH]; [done|].
  rewrite fmap_cons, concat_cons, omap_app, omap_vertex_triangle, IH.
  by rewrite bind_cons, fmap_app.
Qed.

Lemma omap_vertex_batch scale client tris :
  omap vertex_of_call (cmd_batch scale client tris)
  = scaled scale <$> (tris ≫= triangle_vertices).
Proof.
  unfold cmd_batch. cbn [omap list_omap vertex_of_call].
  rewrite omap_app, omap_vertex_triangles. simpl. by rewrite app_nil_r.
Qed.

Lemma omap_vertex_batches scale client (cmds : list (ImDrawList * ImDrawCmd)) :
  omap vertex_of_call (concat (code_batch scale client <$> cmds))
  = scaled scale
      <$> (lc ← cmds; t ← default [] (cmd_triangles lc.1 lc.2);
           triangle_vertices t).
Proof.
  induction cmds as [|lc cmds IH]; [done|].
  rewrite fmap_cons, concat_cons, omap_app, IH, bind_cons, fmap_app.
  f_equal. apply omap_vertex_batch.
Qed.

Lemma geometry_triangles scale tris :
  Forall (fun c => is_geometry c = true)
         (concat (triangle_calls scale <$> tris)).
Proof.
  induction tris as [|[[v0 v1] v2] tris IH]; simpl; [constructor|].
  repeat (constructor; [done|]). exact IH.
Qed.

Lemma geometry_batch scale client tris :
  Forall (fun c => is_geometry c = true) (cmd_batch scale client tris).
Proof.
  unfold cmd_batch. constructor; [done|].
  apply Forall_app. split; [apply geometry_triangles|].
  by repeat constructor.
Qed.

Lemma geometry_batches scale client (cmds : list (ImDrawList * ImDrawCmd)) :
  Forall (fun c => is_geometry c = true)
         (concat (code_batch scale client <$> cmds)).
Proof.
  induction cmds as [|lc cmds IH]; [constructor|].
  rewrite fmap_cons, concat_cons.
  apply Forall_app. split; [apply geometry_batch|exact IH].
Qed.

Lemma no_flush_triangles scale tris :
  Forall (fun c => is_flush c = false) (concat (triangle_calls scale <$> tris)).
Proof.
  induction tris as [|[[v0 v1] v2] tris IH]; simpl; [constructor|].
  repeat (constructor; [done|]). exact IH.
Qed.

Lemma split_batches_flush (pre : list Call) (c : Call) :
  Forall (fun c => is_flush c = false) pre -> is_flush c = true ->
  forall cur rest,
    split_batches cur (pre ++ c :: rest)
    = (cur ++ pre ++ [c]) :: split_batches [] rest.
Proof.
  intros Hpre Hc. induction Hpre as [|p pre Hp _ IH]; intros cur rest; simpl.
  - by rewrite Hc.
  - rewrite Hp, IH. by rewrite <- app_assoc.
Qed.

Lemma cmd_batch_flush_last scale client tris :
  cmd_batch scale client tris
  = (tess_begin TriangleList 0 :: concat (triangle_calls scale <$> tris)
       ++ [createMaterial "ui_texture_and_color_blur"%string])
    ++ [renderMeshImmediately "ui_texture_and_color_blur"%string client].
Proof. unfold cmd_batch. simpl. by rewrite <- app_assoc. Qed.

Lemma split_batches_code scale client (cmds : list (ImDrawList * ImDrawCmd)) :
  split_batches [] (concat (code_batch scale client <$> cmds))
  = code_batch scale client <$> cmds.
Proof.
  induction cmds as [|lc cmds IH]; [done|].
  rewrite fmap_cons, concat_cons. unfold code_batch at 1 3.
  rewrite cmd_batch_flush_last, <- app_assoc. cbn [app].
  rewrite app_comm_cons, split_batches_flush, IH; [done| |done].
  constructor; [done|]. apply Forall_app. split; [apply no_flush_triangles|].
  by repeat constructor.
Qed.

Lemma count_batch p scale client tris :
  (forall v, p (tess_color v) = false) ->
  (forall x y z u v, p (tess_vertexUV x y z u v) = false) ->
  count p (cmd_batch scale client tris)
  = count p [tess_begin TriangleList 0;
             createMaterial "ui_texture_and_color_blur"%string;
             renderMeshImmediately "ui_texture_and_color_blur"%string client].
Proof.
  intros Hc Hv. unfold cmd_batch.
  change (?a :: ?l ++ ?r) with ([a] ++ l ++ r). rewrite !count_app.
  assert (count p (concat (triangle_calls scale <$> tris)) = 0%nat) as ->.
  { induction tris as [|[[v0 v1] v2] tris IH]; [done|].
    rewrite fmap_cons, concat_cons, count_app, IH.
    unfold count. simpl. by rewrite !Hc, !Hv. }
  change [?a; ?b; ?c] with ([a] ++ [b; c]). by rewrite count_app.
Qed.

End Logs.

(** ** Properties of the renderer *)

Section Properties.
Context {FT : FloatType} {F32 : Float32}.

Lemma at_index_elem_of {A} (l : list A) (i : Z) (a : A) :
  at_index l i = Some a -> a ∈ l.
Proof.
  unfold at_index. destruct (0 <=? i); [|done].
  intros Hl. apply list_elem_of_lookup. eauto.
Qed.

Lemma read_triangle_elem_of vtx idx (i : Z) t :
  read_triangle vtx idx i = Some t ->
  Forall (fun sv => sv ∈ vtx) (triangle_vertices t).
Proof.
  unfold read_triangle. intros Ht.
  destruct (at_index idx (wrap32 (i + 2))) as [i2|]; simpl in Ht; [|done].
  destruct (at_index vtx i2) as [v0|] eqn:H0; simpl in Ht; [|done].
  destruct (at_index idx (wrap32 (i + 1))) as [i1|]; simpl in Ht; [|done].
  destruct (at_index vtx i1) as [v1|] eqn:H1; simpl in Ht; [|done].
  destruct (at_index idx (wrap32 (i + 0))) as [i0|]; simpl in Ht; [|done].
  destruct (at_index vtx i0) as [v2|] eqn:H2; simpl in Ht; [|done].
  injection Ht as <-. unfold triangle_vertices. simpl.
  repeat constructor; by eapply at_index_elem_of.
Qed.

Lemma read_all_Forall {A B} (f : A -> option B) (P : B -> Prop) (l : list A) :
  (forall a b, f a = Some b -> P b) ->
  forall bs, read_all f l = Some bs -> Forall P bs.
Proof.
  intros Hf. induction l as [|a l IH]; intros bs; simpl.
  - intros [= <-]. constructor.
  - destruct (f a) as [b|] eqn:Hb; simpl; [|done].
    destruct (read_all f l) as [bs'|]; simpl; [|done].
    intros [= <-]. constructor; eauto.
Qed.

(** Every vertex a frame reads is a vertex of one of the visited lists. *)
Lemma read_vertices_source (data : ImDrawData) :
  Forall (fun sv => exists l, l ∈ visited_lists data /\ sv ∈ VtxBuffer l)
         (read_vertices data).
Proof.
  apply Forall_forall. intros sv.
  unfold read_vertices, source_commands.
  intros ([l cmd] & Hsv & Hlc)%list_elem_of_bind.
  apply list_elem_of_bind in Hlc as (l' & Hcmd & Hl').
  apply list_elem_of_fmap in Hcmd as (cmd' & [= -> ->] & _).
  exists l'. split; [done|].
  apply list_elem_of_bind in Hsv as (t & Hsv & Ht). simpl in Ht.
  unfold cmd_triangles in Ht.
  destruct (read_all _ _) as [tris|] eqn:Htris; simpl in Ht;
    [|by apply elem_of_nil in Ht].
  eapply read_all_Forall in Htris;
    [|intros a b; apply read_triangle_elem_of].
  rewrite Forall_forall in Htris. specialize (Htris t Ht).
  rewrite Forall_forall in Htris. by apply Htris.
Qed.

Lemma refreshed_calls ctx (w : World) :
  calls (refreshed ctx w)
  = calls w ++ (if textures_unloaded w then load_fonts_calls (Fonts w) else []).
Proof.
  unfold refreshed. destruct (textures_unloaded w); [done|].
  by rewrite app_nil_r.
Qed.

(** A frame that follows [set_textures_unloaded] is a frame on a world whose
    flag is clear: under the contract it adds the batches and nothing else. *)
Lemma set_then_render_never_loads data ctx (w : World) (client : Z) :
  data_ok data = true -> mClientTexture (texturePtr w) = Some client ->
  (set_textures_unloaded;; render_draw_data data ctx) w
  = Some (tt, add_calls (concat (code_batch (getGuiScale ctx) client
                                   <$> source_commands data))
                        (with_textures_unloaded false w)).
Proof.
  intros Hdata Htex. rewrite bind_run. unfold set_textures_unloaded, modify.
  by rewrite (render_draw_data_run _ _ _ client).
Qed.

(** C1: [set_textures_unloaded] stores [false] in [textures_unloaded],
    whatever the flag was, so after it the flag is never set; it makes no
    host call and leaves the texture handle alone. *)
Theorem set_textures_unloaded_stores_false (w : World) :
  exists w', set_textures_unloaded w = Some (tt, w') /\
             textures_unloaded w' = false /\
             calls w' = calls w /\ texturePtr w' = texturePtr w.
Proof. by eexists. Qed.

(** C5: every vertex a frame emits is a source vertex with its position
    divided by the GUI scale of the render context and its UV passed through
    unchanged; the vertices go out in the order they are read. *)
Theorem emitted_vertices_scaled data ctx (w : World) :
  input_ok data ctx w = true ->
  exists w' new,
    render_draw_data data ctx w = Some (tt, w') /\
    calls w' = calls w ++ new /\
    omap vertex_of_call new
    = scaled (getGuiScale ctx) <$> read_vertices data /\
    Forall (fun sv => exists l, l ∈ visited_lists data /\ sv ∈ VtxBuffer l)
           (read_vertices data).
Proof.
  intros (Hdata & client & Htex)%input_ok_parts.
  eexists _, _. split; [by apply render_draw_data_run|].
  split; [|split; [|apply read_vertices_source]].
  - unfold add_calls. simpl. rewrite refreshed_calls, <- app_assoc. done.
  - rewrite omap_app, omap_vertex_batches.
    by destruct (textures_unloaded w).
Qed.

(** C6: when the flag is set, a frame first runs [load_fonts] (one upload,
    one handle fetch), only then emits geometry, and returns with the flag
    clear and the fresh handle stored. *)
Theorem stale_texture_refreshed_first data ctx (w : World) :
  textures_unloaded w = true ->
  input_ok data ctx w = true ->
  exists w' geometry,
    render_draw_data data ctx w = Some (tt, w') /\
    calls w' = calls w ++ load_fonts_calls (Fonts w) ++ geometry /\
    count is_upload (load_fonts_calls (Fonts w)) = 1%nat /\
    Forall (fun c => is_geometry c = false) (load_fonts_calls (Fonts w)) /\
    Forall (fun c => is_geometry c = true) geometry /\
    textures_unloaded w' = false /\
    texturePtr w' = ctx_getTexture ctx "imgui_font"%string false.
Proof.
  intros Hflag (Hdata & client & Htex)%input_ok_parts.
  eexists _, _. split; [by apply render_draw_data_run|].
  unfold add_calls. simpl. rewrite refreshed_calls, <- app_assoc.
  unfold refreshed. rewrite Hflag. simpl.
  split; [done|]. split; [done|]. split; [by repeat constructor|].
  split; [apply geometry_batches|done].
Qed.

(** C7: a frame flushes once per source command: cut after each flush, what
    it adds to the log is one batch per command, in the order of the
    commands across the visited lists, each opened by its own [begin]. *)
Theorem one_flush_per_command data ctx (w : World) :
  input_ok data ctx w = true ->
  exists w' client new,
    render_draw_data data ctx w = Some (tt, w') /\
    calls w' = calls (refreshed ctx w) ++ new /\
    split_batches [] new
    = code_batch (getGuiScale ctx) client <$> source_commands data /\
    count is_flush new = length (source_commands data) /\
    count is_begin new = length (source_commands data).
Proof.
  intros (Hdata & client & Htex)%input_ok_parts.
  eexists _, client, _. split; [by apply render_draw_data_run|].
  split; [done|]. split; [apply split_batches_code|].
  split.
  - rewrite (count_concat _ 1); [rewrite length_fmap; lia|].
    apply Forall_fmap, Forall_forall. intros lc _. simpl.
    unfold code_batch. by rewrite count_batch.
  - rewrite (count_concat _ 1); [rewrite length_fmap; lia|].
    apply Forall_fmap, Forall_forall. intros lc _. simpl.
    unfold code_batch. by rewrite count_batch.
Qed.


(** C9: [new_frame] stores the screen size of the render context's GUI data
    in the toolkit's [DisplaySize], both components, and always returns. *)
Theorem new_frame_writes_display_size ctx (w : World) :
  exists w',
    new_frame ctx w = Some (tt, w') /\
    vx (DisplaySize w') = vx (getScreenSize ctx) /\
    vy (DisplaySize w') = vy (getScreenSize ctx) /\
    calls w' = calls w /\ textures_unloaded w' = textures_unloaded w.
Proof. by eexists. Qed.

(** C10: the RGB overload of [draw_filled_rect] never looks at its [flags]:
    it is the RGBA overload with alpha 1.0 and the default flags, and any two
    [flags] values give the same result. *)
Theorem draw_filled_rect_rgb_discards_flags (default_flags : Z)
    (p size : ImVec2) (color : vec3) (radius : float) (flags : Z) (w : World) :
  draw_filled_rect_rgb default_flags p size color radius flags w
  = draw_filled_rect p size (mkVec4 (x3 color) (y3 color) (z3 color) f_one)
                     radius default_flags w
  /\ (forall flags',
        draw_filled_rect_rgb default_flags p size color radius flags' w
        = draw_filled_rect_rgb default_flags p size color radius flags w)
  /\ exists c,
       background <$> exec (draw_filled_rect_rgb default_flags p size color
                                                 radius flags) w
       = Some (background w
                 ++ [AddRectFilled p (mkImVec2 (fadd (vx p) (vx size))
                                               (fadd (vy p) (vy size)))
                                   c radius default_flags]).
Proof.
  split; [done|]. split; [done|]. eexists. destruct p. reflexivity.
Qed.

End Properties.

(** ** Frames on arbitrary draw data *)

Section AnyFrame.
Context {FT : FloatType} {F32 : Float32}.

(** A computation that, wherever it returns, has only appended geometry
    calls to the log and changed nothing else. *)
Definition adds_geometry {A} (m : M A) : Prop :=
  forall w a w', m w = Some (a, w') ->
    exists cs, w' = add_calls cs w /\ Forall (fun c => is_geometry c = true) cs.

Lemma adds_geometry_ret {A} (a : A) : adds_geometry (mret a).
Proof.
  intros w a' w' [= <- <-]. exists []. by rewrite add_calls_nil.
Qed.

Lemma adds_geometry_gets {A} (f : World -> A) : adds_geometry (gets f).
Proof.
  intros w a' w' [= <- <-]. exists []. by rewrite add_calls_nil.
Qed.

Lemma adds_geometry_defined {A} (o : option A) : adds_geometry (defined o).
Proof.
  intros w a' w'. unfold defined. destruct o; [|done].
  intros [= <- <-]. exists []. by rewrite add_calls_nil.
Qed.

Lemma adds_geometry_call (c : Call) :
  is_geometry c = true -> adds_geometry (call c).
Proof.
  intros Hc w a' w' [= <- <-]. exists [c]. split; [done|]. by constructor.
Qed.

Lemma adds_geometry_bind {A B} (m : M A) (f : A -> M B) :
  adds_geometry m -> (forall a, adds_geometry (f a)) ->
  adds_geometry (m ≫= f).
Proof.
  intros Hm Hf w b w'. rewrite bind_run.
  destruct (m w) as [[a w1]|] eqn:Hrun; [|done].
  intros Hrun'. apply Hm in Hrun as (cs1 & -> & H1).
  apply Hf in Hrun' as (cs2 & -> & H2).
  exists (cs1 ++ cs2). rewrite add_calls_app. split; [done|].
  by apply Forall_app.
Qed.

Lemma adds_geometry_for_count (k : nat) (body : Z -> M unit) :
  (forall n, adds_geometry (body n)) ->
  forall n, adds_geometry (for_count k n body).
Proof.
  intros Hbody. induction k as [|k IH]; intros n; simpl.
  - apply adds_geometry_ret.
  - apply adds_geometry_bind; [apply Hbody|]. intros _. apply IH.
Qed.

Lemma adds_geometry_emit_vertex scale v :
  adds_geometry (emit_vertex scale v).
Proof.
  apply adds_geometry_bind; [by apply adds_geometry_call|].
  intros _. by apply adds_geometry_call.
Qed.

Lemma adds_geometry_triangle_loop scale vtx idx (elem_count : Z) (fuel : nat) :
  forall i, adds_geometry (triangle_loop fuel scale vtx idx elem_count i).
Proof.
  induction fuel as [|fuel IH]; intros i; simpl.
  - apply adds_geometry_ret.
  - destruct (i <? elem_count); [|apply adds_geometry_ret].
    apply adds_geometry_bind; [apply adds_geometry_defined|].
    intros [[v0 v1] v2].
    repeat (apply adds_geometry_bind;
            [apply adds_geometry_emit_vertex|intros _]).
    apply IH.
Qed.

Lemma adds_geometry_render_cmd scale (cmd_list : ImDrawList)
    (cmd : ImDrawCmd) :
  adds_geometry (render_cmd scale cmd_list cmd).
Proof.
  unfold render_cmd.
  apply adds_geometry_bind; [by apply adds_geometry_call|]. intros _.
  apply adds_geometry_bind; [apply adds_geometry_triangle_loop|]. intros _.
  apply adds_geometry_bind; [by apply adds_geometry_call|]. intros _.
  apply adds_geometry_bind; [apply adds_geometry_gets|]. intros tex.
  apply adds_geometry_bind; [apply adds_geometry_defined|]. intros client.
  by apply adds_geometry_call.
Qed.

Lemma adds_geometry_draw_loops scale (data : ImDrawData) :
  adds_geometry
    (for_upto (CmdListsCount data) (fun n =>
       cmd_list ← defined (at_index (CmdLists data) n);
       for_upto (Z.of_nat (length (CmdBuffer cmd_list))) (fun cmd_i =>
         cmd ← defined (at_index (CmdBuffer cmd_list) cmd_i);
         render_cmd scale cmd_list cmd))).
Proof.
  apply adds_geometry_for_count. intros n.
  apply adds_geometry_bind; [apply adds_geometry_defined|]. intros cmd_list.
  apply adds_geometry_for_count. intros cmd_i.
  apply adds_geometry_bind; [apply adds_geometry_defined|]. intros cmd.
  apply adds_geometry_render_cmd.
Qed.

(** Whatever the draw data, a frame that returns has refreshed the texture
    if the flag was set and then only appended geometry calls. *)
Lemma render_draw_data_shape data ctx (w w' : World) :
  render_draw_data data ctx w = Some (tt, w') ->
  exists geometry,
    w' = add_calls geometry (refreshed ctx w) /\
    Forall (fun c => is_geometry c = true) geometry.
Proof.
  unfold render_draw_data. rewrite bind_run. unfold gets. rewrite bind_run.
  assert ((if textures_unloaded w then load_fonts ctx else mret tt) w
          = Some (tt, refreshed ctx w)) as ->.
  { unfold refreshed. destruct (textures_unloaded w); [|done].
    apply load_fonts_run. }
  apply adds_geometry_draw_loops.
Qed.

Lemma count_geometry_upload (cs : list Call) :
  Forall (fun c => is_geometry c = true) cs -> count is_upload cs = 0%nat.
Proof.
  induction 1 as [|c cs Hc _ IH]; [done|].
  change (c :: cs) with ([c] ++ cs). rewrite count_app, IH.
  by destruct c.
Qed.

End AnyFrame.

(** ** Uploads of [load_fonts] and of frames *)

Section Uploads.
Context {FT : FloatType} {F32 : Float32}.

(** C4 (amended): [load_fonts] uploads on every call, whether or not the
    texture is valid: one call performs one upload, two calls in succession
    perform two, and each call leaves the flag clear.  Uploading once is what
    [render_draw_data] does: a frame that returns has uploaded once if it was
    entered with the flag set and not at all otherwise, so a frame that
    follows [load_fonts] is defined under the contract and uploads
    nothing. *)
Theorem load_fonts_uploads_every_call ctx (w : World) :
  exists w1 w2,
    exec (load_fonts ctx) w = Some w1 /\
    exec (load_fonts ctx;; load_fonts ctx) w = Some w2 /\
    count is_upload (calls w1) = (count is_upload (calls w) + 1)%nat /\
    count is_upload (calls w2) = (count is_upload (calls w) + 2)%nat /\
    textures_unloaded w1 = false /\ textures_unloaded w2 = false /\
    (forall data ctx' (v v' : World),
       render_draw_data data ctx' v = Some (tt, v') ->
       count is_upload (calls v')
       = (count is_upload (calls v)
          + (if textures_unloaded v then 1 else 0))%nat) /\
    (forall data ctx',
       data_ok data = true -> is_Some (mClientTexture (texturePtr w1)) ->
       exists w',
         render_draw_data data ctx' w1 = Some (tt, w') /\
         count is_upload (calls w') = count is_upload (calls w1)).
Proof.
  exists (load_fonts_world ctx w),
         (load_fonts_world ctx (load_fonts_world ctx w)).
  assert (forall data ctx' (v v' : World),
            render_draw_data data ctx' v = Some (tt, v') ->
            count is_upload (calls v')
            = (count is_upload (calls v)
               + (if textures_unloaded v then 1 else 0))%nat) as Hframe.
  { intros data ctx' v v' (geometry & -> & Hgeo)%render_draw_data_shape.
    unfold add_calls. simpl. rewrite refreshed_calls, !count_app.
    rewrite (count_geometry_upload geometry Hgeo).
    destruct (textures_unloaded v); unfold count; simpl; lia. }
  split.
  { unfold exec. by rewrite load_fonts_run. }
  split.
  { unfold exec. rewrite bind_run, load_fonts_run. cbv beta iota.
    by rewrite load_fonts_run. }
  split.
  { simpl. rewrite count_app. unfold count. simpl. lia. }
  split.
  { simpl. rewrite !count_app. unfold count. simpl. lia. }
  split; [done|]. split; [done|]. split; [exact Hframe|].
  intros data ctx' Hdata [client Hclient].
  eexists. split.
  - by apply (render_draw_data_run _ _ _ client).
  - unfold add_calls, refreshed. simpl. rewrite count_app.
    rewrite (count_geometry_upload _ (geometry_batches _ _ _)). lia.
Qed.

End Uploads.

(** ** Further properties of frames *)

Section MoreFrames.
Context {FT : FloatType} {F32 : Float32}.

Definition is_vertex (c : Call) : bool :=
  match c with tess_vertexUV _ _ _ _ _ => true | _ => false end.

Definition is_color (c : Call) : bool :=
  match c with tess_color _ => true | _ => false end.

(** Sum of the element counts of the commands a frame visits. *)
Definition total_elements (data : ImDrawData) : Z :=
  foldr (fun lc acc => ElemCount lc.2 + acc) 0 (source_commands data).

(** The vertices at the head of each command's index buffer, [ElemCount]
    indices long, each triplet reversed. *)
Definition leading_vertices (data : ImDrawData) : list ImDrawVert :=
  lc ← source_commands data;
  t ← default [] (read_all (reversed_triangle (VtxBuffer lc.1))
                           (leading_triplets lc.1 lc.2));
  triangle_vertices t.

(** The vertices of the index range each command names, each triplet
    reversed. *)
Definition named_range_vertices (data : ImDrawData) : list ImDrawVert :=
  lc ← source_commands data;
  t ← default [] (read_all (reversed_triangle (VtxBuffer lc.1))
                           (source_triplets lc.1 lc.2));
  triangle_vertices t.

Lemma source_commands_ok (data : ImDrawData) :
  data_ok data = true ->
  Forall (fun lc => list_ok lc.1 = true /\ cmd_ok lc.1 lc.2 = true)
         (source_commands data).
Proof.
  intros (_ & Hlists)%data_ok_parts. unfold source_commands.
  induction Hlists as [|l ls Hl _ IH]; [constructor|].
  rewrite bind_cons. apply Forall_app. split; [|exact IH].
  apply Forall_fmap. apply list_ok_parts in Hl as Hparts.
  destruct Hparts as (_ & _ & Hcmds).
  eapply Forall_impl; [exact Hcmds|]. intros cmd Hcmd. by split.
Qed.

Lemma bind_ext_Forall {A B} (f g : A -> list B) (l : list A) :
  Forall (fun a => f a = g a) l -> l ≫= f = l ≫= g.
Proof.
  induction 1 as [|a l Ha _ IH]; [done|].
  by rewrite !bind_cons, Ha, IH.
Qed.

Lemma count_vertex_triangles scale tris :
  count is_vertex (concat (triangle_calls scale <$> tris))
  = (3 * length tris)%nat.
Proof.
  induction tris as [|[[v0 v1] v2] tris IH]; [done|].
  rewrite fmap_cons, concat_cons, count_app, IH. unfold count. simpl. lia.
Qed.

Lemma count_vertex_batch scale client tris :
  count is_vertex (cmd_batch scale client tris) = (3 * length tris)%nat.
Proof.
  unfold cmd_batch. change (?a :: ?l ++ ?r) with ([a] ++ l ++ r).
  rewrite !count_app, count_vertex_triangles. unfold count. simpl. lia.
Qed.

Lemma count_color_triangles scale tris :
  count is_color (concat (triangle_calls scale <$> tris))
  = (3 * length tris)%nat.
Proof.
  induction tris as [|[[v0 v1] v2] tris IH]; [done|].
  rewrite fmap_cons, concat_cons, count_app, IH. unfold count. simpl. lia.
Qed.

Lemma count_color_batch scale client tris :
  count is_color (cmd_batch scale client tris) = (3 * length tris)%nat.
Proof.
  unfold cmd_batch. change (?a :: ?l ++ ?r) with ([a] ++ l ++ r).
  rewrite !count_app, count_color_triangles. unfold count. simpl. lia.
Qed.

Lemma filter_flush_batch scale client tris :
  List.filter is_flush (cmd_batch scale client tris)
  = [renderMeshImmediately "ui_texture_and_color_blur"%string client].
Proof.
  rewrite cmd_batch_flush_last, List.filter_app. simpl.
  assert (List.filter is_flush (concat (triangle_calls scale <$> tris) ++
            [createMaterial "ui_texture_and_color_blur"%string]) = []) as ->;
    [|done].
  rewrite List.filter_app. simpl. rewrite app_nil_r.
  induction tris as [|[[v0 v1] v2] tris IH]; [done|].
  by rewrite fmap_cons, concat_cons, List.filter_app, IH.
Qed.

Lemma filter_flush_batches scale client (cmds : list (ImDrawList * ImDrawCmd)) :
  List.filter is_flush (concat (code_batch scale client <$> cmds))
  = replicate (length cmds)
      (renderMeshImmediately "ui_texture_and_color_blur"%string client).
Proof.
  induction cmds as [|lc cmds IH]; [done|].
  rewrite fmap_cons, concat_cons, List.filter_app, IH.
  unfold code_batch. by rewrite filter_flush_batch.
Qed.

End MoreFrames.

(** ** Properties beyond the frame contract *)

Section ExtraProperties.
Context {FT : FloatType} {F32 : Float32}.

(** X1: whatever the draw data, a frame that returns leaves the flag clear,
    has uploaded once if the flag was set and not at all otherwise, and has
    not touched the display size, the background draw list or the style. *)
Theorem frame_leaves_flag_clear data ctx (w w' : World) :
  render_draw_data data ctx w = Some (tt, w') ->
  textures_unloaded w' = false /\
  count is_upload (calls w')
  = (count is_upload (calls w) + (if textures_unloaded w then 1 else 0))%nat /\
  DisplaySize w' = DisplaySize w /\ background w' = background w /\
  AntiAliasedLines w' = AntiAliasedLines w /\
  AntiAliasedFill w' = AntiAliasedFill w.
Proof.
  intros (geometry & -> & Hgeo)%render_draw_data_shape.
  unfold add_calls. simpl. rewrite refreshed_calls, !count_app.
  rewrite (count_geometry_upload geometry Hgeo). unfold refreshed.
  destruct (textures_unloaded w) eqn:Hflag; simpl; repeat split; try done;
    unfold count; simpl; lia.
Qed.

(** X2: every flush of a frame binds the material
    [ui_texture_and_color_blur] and the client texture of the handle in use:
    the one [load_fonts] has just fetched when the flag was set, the stored
    one otherwise. *)
Theorem flushes_bind_texture_in_use data ctx (w : World) :
  input_ok data ctx w = true ->
  exists w' client new,
    render_draw_data data ctx w = Some (tt, w') /\
    calls w' = calls (refreshed ctx w) ++ new /\
    mClientTexture (texture_in_use ctx w) = Some client /\
    List.filter is_flush new
    = replicate (length (source_commands data))
        (renderMeshImmediately "ui_texture_and_color_blur"%string client).
Proof.
  intros (Hdata & client & Htex)%input_ok_parts.
  eexists _, client, _. split; [by apply render_draw_data_run|].
  split; [done|]. split; [done|]. apply filter_flush_batches.
Qed.

(** X3: under the contract a frame emits one vertex, each with its colour,
    per element of every visited command: the number of vertices is the sum
    of the element counts. *)
Theorem frame_emits_every_element data ctx (w : World) :
  input_ok data ctx w = true ->
  exists w' new,
    render_draw_data data ctx w = Some (tt, w') /\
    calls w' = calls (refreshed ctx w) ++ new /\
    Z.of_nat (count is_vertex new) = total_elements data /\
    count is_color new = count is_vertex new.
Proof.
  intros (Hdata & client & Htex)%input_ok_parts.
  eexists _, _. split; [by apply render_draw_data_run|].
  split; [done|]. unfold total_elements.
  pose proof (source_commands_ok data Hdata) as Hok.
  induction Hok as [|[l cmd] cmds [Hl Hc] _ [IHv IHc]]; [done|].
  rewrite fmap_cons, concat_cons, !count_app.
  change (code_batch (getGuiScale ctx) client (l, cmd))
    with (cmd_batch (getGuiScale ctx) client
            (default [] (cmd_triangles l cmd))).
  rewrite count_vertex_batch, count_color_batch, IHc.
  simpl in Hl, Hc.
  destruct (cmd_triangles_defined _ _ Hl Hc) as (tris & -> & Hlen).
  apply cmd_ok_range in Hc as (Hm & _). simpl.
  split; [|done]. lia.
Qed.

(** X4: the triangle loop of a command steps by three until it passes
    [ElemCount], so a count that is not a multiple of three is rounded up:
    a command that returns has emitted [3 * ceil(ElemCount / 3)] vertices. *)
Theorem element_count_rounded_up scale (cmd_list : ImDrawList)
    (cmd : ImDrawCmd) (w w' : World) :
  0 <= ElemCount cmd < 2 ^ 32 ->
  render_cmd scale cmd_list cmd w = Some (tt, w') ->
  exists new,
    calls w' = calls w ++ new /\
    Z.of_nat (count is_vertex new) = 3 * ((ElemCount cmd + 2) / 3).
Proof.
  intros HE. rewrite render_cmd_run by lia.
  destruct (cmd_triangles cmd_list cmd) as [tris|] eqn:Htris; [|done].
  simpl. destruct (mClientTexture (texturePtr w)) as [client|]; [|done].
  simpl. intros [= <-]. eexists. split; [done|].
  rewrite count_vertex_batch. apply read_all_length in Htris.
  rewrite Htris. unfold triangle_starts. rewrite length_fmap, length_seq.
  unfold iterations. rewrite Nat2Z.inj_mul, Z2Nat.id; [done|].
  apply Z.div_pos; lia.
Qed.

(** X5: under the contract every command of a list emits the triplets at the
    head of the list's index buffer, [ElemCount] indices long and each
    reversed, whichever index range the command names. *)
Theorem commands_emit_leading_triplets data ctx (w : World) :
  input_ok data ctx w = true ->
  exists w' new,
    render_draw_data data ctx w = Some (tt, w') /\
    calls w' = calls (refreshed ctx w) ++ new /\
    omap vertex_of_call new
    = scaled (getGuiScale ctx) <$> leading_vertices data.
Proof.
  intros (Hdata & client & Htex)%input_ok_parts.
  eexists _, _. split; [by apply render_draw_data_run|].
  split; [done|]. rewrite omap_vertex_batches. f_equal.
  unfold leading_vertices. apply bind_ext_Forall.
  eapply Forall_impl; [apply (source_commands_ok data Hdata)|].
  intros [l cmd] [Hl Hc]. simpl.
  apply list_ok_parts in Hl as (Hlen & _ & _).
  by rewrite cmd_triangles_leading.
Qed.

(** X6: when every visited command names a range that starts its list's
    index buffer, a frame emits exactly the source triplets of the commands,
    each as vertex[c], vertex[b], vertex[a]. *)
Theorem zero_offset_commands_match_source data ctx (w : World) :
  input_ok data ctx w = true ->
  Forall (fun lc => IdxOffset lc.2 = 0) (source_commands data) ->
  exists w' new,
    render_draw_data data ctx w = Some (tt, w') /\
    calls w' = calls (refreshed ctx w) ++ new /\
    omap vertex_of_call new
    = scaled (getGuiScale ctx) <$> named_range_vertices data.
Proof.
  intros (Hdata & client & Htex)%input_ok_parts Hzero.
  eexists _, _. split; [by apply render_draw_data_run|].
  split; [done|]. rewrite omap_vertex_batches. f_equal.
  unfold named_range_vertices. apply bind_ext_Forall.
  pose proof (source_commands_ok data Hdata) as Hok.
  rewrite Forall_forall in Hok, Hzero. apply Forall_forall.
  intros [l cmd] Hin. destruct (Hok _ Hin) as [Hl Hc].
  specialize (Hzero _ Hin). simpl in *.
  apply list_ok_parts in Hl as (Hlen & _ & _).
  rewrite cmd_triangles_leading by done.
  unfold leading_triplets, source_triplets. by rewrite Hzero.
Qed.

(** X7: a negative [CmdListsCount] visits no list, even when [CmdLists] is
    not empty: the frame only refreshes the texture if the flag was set. *)
Theorem negative_count_visits_nothing data ctx (w : World) :
  CmdListsCount data < 0 ->
  render_draw_data data ctx w = Some (tt, refreshed ctx w).
Proof.
  intros Hneg. unfold render_draw_data. rewrite bind_run. unfold gets.
  rewrite bind_run. unfold for_upto.
  replace (Z.to_nat (CmdListsCount data)) with 0%nat by lia. simpl.
  unfold refreshed. destruct (textures_unloaded w); [|done].
  by rewrite load_fonts_run.
Qed.

(** The public operations of the renderer. *)
Inductive Op :=
| op_set_textures_unloaded
| op_load_fonts (ctx : MinecraftUIRenderContext)
| op_initialize_imgui (ctx : MinecraftUIRenderContext)
| op_new_frame (ctx : MinecraftUIRenderContext)
| op_render_draw_data (data : ImDrawData) (ctx : MinecraftUIRenderContext)
| op_draw_rect (p size : ImVec2) (color : vec4) (stroke_width radius : float)
| op_draw_rect_rgb (p size : ImVec2) (color : vec3)
                   (stroke_width radius : float)
| op_draw_filled_rect (p size : ImVec2) (color : vec4) (radius : float)
                      (flags : Z)
| op_draw_filled_rect_rgb (default_flags : Z) (p size : ImVec2) (color : vec3)
                          (radius : float) (flags : Z).

Definition run_op (o : Op) : M unit :=
  match o with
  | op_set_textures_unloaded => set_textures_unloaded
  | op_load_fonts ctx => load_fonts ctx
  | op_initialize_imgui ctx => initialize_imgui ctx;; mret tt
  | op_new_frame ctx => new_frame ctx
  | op_render_draw_data data ctx => render_draw_data data ctx
  | op_draw_rect p size color stroke_width radius =>
      draw_rect p size color stroke_width radius
  | op_draw_rect_rgb p size color stroke_width radius =>
      draw_rect_rgb p size color stroke_width radius
  | op_draw_filled_rect p size color radius flags =>
      draw_filled_rect p size color radius flags
  | op_draw_filled_rect_rgb default_flags p size color radius flags =>
      draw_filled_rect_rgb default_flags p size color radius flags
  end.

(** The operations that call [load_fonts] whatever the flag. *)
Definition loads_unconditionally (o : Op) : bool :=
  match o with
  | op_load_fonts _ | op_initialize_imgui _ => true
  | _ => false
  end.

Lemma run_op_step (o : Op) (w w' : World) :
  run_op o w = Some (tt, w') -> textures_unloaded w = false ->
  textures_unloaded w' = false /\
  (loads_unconditionally o = false ->
   count is_upload (calls w') = count is_upload (calls w) /\
   texturePtr w' = texturePtr w).
Proof.
  intros Hrun Hflag. destruct o; simpl in Hrun.
  - injection Hrun as <-. by repeat split.
  - rewrite load_fonts_run in Hrun. injection Hrun as <-. by split.
  - unfold initialize_imgui in Hrun. rewrite !bind_run in Hrun.
    unfold modify in Hrun. rewrite bind_run, load_fonts_run in Hrun.
    injection Hrun as <-. by split.
  - injection Hrun as <-. by repeat split.
  - apply render_draw_data_shape in Hrun as (geometry & -> & Hgeo).
    unfold refreshed. rewrite Hflag. unfold add_calls. simpl.
    rewrite count_app, (count_geometry_upload geometry Hgeo).
    repeat split; [done|lia].
  - injection Hrun as <-. by repeat split.
  - injection Hrun as <-. by repeat split.
  - injection Hrun as <-. by repeat split.
  - injection Hrun as <-. by repeat split.
Qed.

(** X10: no operation of the renderer ever sets the flag: from a world whose
    flag is clear, any sequence of operations that returns, calls of
    [set_textures_unloaded] included, ends with the flag clear. *)
Theorem flag_stays_clear (ops : list Op) (w w' : World) :
  for_each ops run_op w = Some (tt, w') ->
  textures_unloaded w = false -> textures_unloaded w' = false.
Proof.
  revert w. induction ops as [|o ops IH]; intros w; simpl.
  - by intros [= <-].
  - rewrite bind_run. destruct (run_op o w) as [[[] w1]|] eqn:Hrun; [|done].
    intros Hrest Hflag. apply (IH w1 Hrest).
    by apply (run_op_step o w w1).
Qed.

(** X11: once the flag is clear the texture is never uploaded again and the
    stored handle never changes, however often [set_textures_unloaded] and
    frames follow, unless [load_fonts] or [initialize_imgui] is called. *)
Theorem no_reupload_once_clear (ops : list Op) (w w' : World) :
  forallb (fun o => negb (loads_unconditionally o)) ops = true ->
  for_each ops run_op w = Some (tt, w') ->
  textures_unloaded w = false ->
  count is_upload (calls w') = count is_upload (calls w) /\
  texturePtr w' = texturePtr w.
Proof.
  revert w. induction ops as [|o ops IH]; intros w; simpl.
  - by intros _ [= <-].
  - rewrite andb_true_iff, negb_true_iff. intros [Ho Hops].
    rewrite bind_run. destruct (run_op o w) as [[[] w1]|] eqn:Hrun; [|done].
    intros Hrest Hflag.
    destruct (run_op_step o w w1 Hrun Hflag) as (Hflag1 & Hsame).
    destruct (Hsame Ho) as [Hup Htex].
    destruct (IH w1 Hops Hrest Hflag1) as [Hup' Htex']. split; congruence.
Qed.

(** X12: [initialize_imgui] returns [true] with both anti-aliasing flags set
    after exactly one upload; a frame that follows it uploads nothing more
    and flushes every command with the handle the initialisation fetched. *)
Theorem initialize_then_frame data ctx (w : World) (client : Z) :
  data_ok data = true ->
  mClientTexture (ctx_getTexture ctx "imgui_font"%string false) = Some client ->
  exists w1 w' new,
    initialize_imgui ctx w = Some (true, w1) /\
    AntiAliasedLines w1 = true /\ AntiAliasedFill w1 = true /\
    textures_unloaded w1 = false /\
    calls w1 = calls w ++ load_fonts_calls (Fonts w) /\
    render_draw_data data ctx w1 = Some (tt, w') /\
    calls w' = calls w1 ++ new /\
    count is_upload (calls w') = (count is_upload (calls w) + 1)%nat /\
    List.filter is_flush new
    = replicate (length (source_commands data))
        (renderMeshImmediately "ui_texture_and_color_blur"%string client).
Proof.
  intros Hdata Htex.
  exists (load_fonts_world ctx (with_style true true w)).
  eexists _, _. split.
  { unfold initialize_imgui. rewrite !bind_run. unfold modify.
    by rewrite bind_run, load_fonts_run. }
  do 4 (split; [done|]).
  split; [by apply (render_draw_data_run _ _ _ client)|].
  split; [done|]. split.
  - unfold add_calls, refreshed. simpl. rewrite !count_app.
    rewrite (count_geometry_upload _ (geometry_batches _ _ _)).
    unfold count. simpl. lia.
  - apply filter_flush_batches.
Qed.

Definition is_vertex_or_color (c : Call) : bool := is_vertex c || is_color c.

Lemma filter_vertex_color_triangles scale tris :
  List.filter is_vertex_or_color (concat (triangle_calls scale <$> tris))
  = (tris ≫= triangle_vertices) ≫= vertex_calls scale.
Proof.
  induction tris as [|[[v0 v1] v2] tris IH]; [done|].
  rewrite fmap_cons, concat_cons, List.filter_app, IH.
  by rewrite bind_cons, bind_app.
Qed.

Lemma filter_vertex_color_batches scale client
    (cmds : list (ImDrawList * ImDrawCmd)) :
  List.filter is_vertex_or_color (concat (code_batch scale client <$> cmds))
  = (lc ← cmds; t ← default [] (cmd_triangles lc.1 lc.2);
     triangle_vertices t) ≫= vertex_calls scale.
Proof.
  induction cmds as [|lc cmds IH]; [done|].
  rewrite fmap_cons, concat_cons, List.filter_app, IH, bind_cons, bind_app.
  f_equal. unfold code_batch. rewrite cmd_batch_flush_last.
  rewrite List.filter_app. cbn [List.filter is_vertex_or_color is_vertex
                                 is_color orb app].
  rewrite List.filter_app, filter_vertex_color_triangles. simpl.
  by rewrite !app_nil_r.
Qed.

(** X15: under the contract the vertex stream of a frame is, for each
    vertex read and in reading order, a colour call with that vertex's
    packed colour immediately followed by its vertex call, at depth zero. *)
Theorem colour_precedes_each_vertex data ctx (w : World) :
  input_ok data ctx w = true ->
  exists w' new,
    render_draw_data data ctx w = Some (tt, w') /\
    calls w' = calls (refreshed ctx w) ++ new /\
    List.filter is_vertex_or_color new
    = sv ← read_vertices data;
      [tess_color (col sv);
       tess_vertexUV (fdiv (vx (pos sv)) (getGuiScale ctx))
                     (fdiv (vy (pos sv)) (getGuiScale ctx)) f_zero
                     (vx (uv sv)) (vy (uv sv))].
Proof.
  intros (Hdata & client & Htex)%input_ok_parts.
  eexists _, _. split; [by apply render_draw_data_run|].
  split; [done|]. apply filter_vertex_color_batches.
Qed.

(** X8: a frame keeps nothing of the geometry it sent: under the contract
    the same draw data rendered again right after adds exactly the same
    calls once more, without a second refresh. *)
Theorem frames_are_repeatable data ctx (w : World) :
  input_ok data ctx w = true ->
  exists w1 w2 new,
    render_draw_data data ctx w = Some (tt, w1) /\
    render_draw_data data ctx w1 = Some (tt, w2) /\
    calls w1 = calls (refreshed ctx w) ++ new /\
    calls w2 = calls w1 ++ new.
Proof.
  intros (Hdata & client & Htex)%input_ok_parts.
  set (new := concat (code_batch (getGuiScale ctx) client
                        <$> source_commands data)).
  exists (add_calls new (refreshed ctx w)),
         (add_calls new (add_calls new (refreshed ctx w))), new.
  assert (textures_unloaded (refreshed ctx w) = false) as Hclear
    by (unfold refreshed; by destruct (textures_unloaded w) eqn:Hflag).
  split; [by apply render_draw_data_run|].
  split; [|done].
  rewrite (render_draw_data_run _ _ _ client Hdata).
  - unfold refreshed at 1. simpl. by rewrite Hclear.
  - unfold texture_in_use at 1. simpl. rewrite Hclear.
    by rewrite refreshed_texture.
Qed.

End ExtraProperties.

(** ** click_gui.cpp: when the click GUI is drawn *)

Module ClickGui.

(** What [click_gui::on_render] does with a frame: either it calls
    [set_enabled(false)] and returns, or it goes on to build the window. *)
Inductive Outcome := disabled_and_returned | window_drawn.

(** The head of [on_render], up to the first ImGui call.  [last] is the
    function-local static [last_screen_name]: [None] until the first call,
    which initialises it with the current screen name. *)
Definition on_render_gate (last : option string) (current : string)
    : option string * Outcome :=
  let last_screen_name := default current last in
  if negb (current =? "hud_screen")%string then
    if negb (last_screen_name =? "hud_screen")%string
       || (negb (current =? "toast_screen")%string
           && negb (current =? "debug_screen")%string)
    then (Some current, disabled_and_returned)
    else (Some last_screen_name, window_drawn)
  else (Some "hud_screen"%string, window_drawn).

(** The static after a run of frames, oldest first. *)
Definition static_after (last : option string) (screens : list string)
    : option string :=
  fold_left (fun st current => (on_render_gate st current).1) screens last.

(** What the frame that follows a run of frames does. *)
Definition outcome_after (screens : list string) (current : string)
    : Outcome :=
  (on_render_gate (static_after None screens) current).2.

(** Toast and debug screens: the overlays the window survives. *)
Definition overlay (s : string) : Prop :=
  s = "toast_screen"%string \/ s = "debug_screen"%string.

Lemma gate_drawn_iff (last : option string) (current : string) :
  (on_render_gate last current).2 = window_drawn
  <-> (on_render_gate last current).1 = Some "hud_screen"%string.
Proof.
  unfold on_render_gate.
  destruct (String.eqb_spec current "hud_screen") as [->|Hcur]; simpl;
    [done|].
  destruct (String.eqb_spec (default current last) "hud_screen") as [Hl|Hl];
    simpl.
  - destruct (String.eqb_spec current "toast_screen"); simpl;
      [by rewrite Hl|].
    destruct (String.eqb_spec current "debug_screen"); simpl;
      [by rewrite Hl|].
    split; [done|]. intros [= ?]. done.
  - split; [done|]. intros [= ?]. done.
Qed.

Lemma gate_static_hud (last : option string) (current : string) :
  (on_render_gate last current).1 = Some "hud_screen"%string
  <-> current = "hud_screen"%string
      \/ (overlay current /\ last = Some "hud_screen"%string).
Proof.
  unfold on_render_gate, overlay.
  destruct (String.eqb_spec current "hud_screen") as [->|Hcur]; simpl;
    [by split; [left|]|].
  destruct last as [l|]; simpl.
  - destruct (String.eqb_spec l "hud_screen") as [->|Hl]; simpl.
    + destruct (String.eqb_spec current "toast_screen"); simpl;
        [split; [by right; split; [left|]|done]|].
      destruct (String.eqb_spec current "debug_screen"); simpl;
        [split; [by right; split; [right|]|done]|].
      split; [by intros [= ?]|]. intros [?|[[?|?] _]]; done.
    + split; [by intros [= ?]|]. intros [?|[_ [= ?]]]; done.
  - destruct (String.eqb_spec current "hud_screen"); [done|]. simpl.
    split; [by intros [= ?]|]. intros [?|[_ ?]]; done.
Qed.

Lemma static_after_snoc last (screens : list string) (current : string) :
  static_after last (screens ++ [current])
  = (on_render_gate (static_after last screens) current).1.
Proof. unfold static_after. by rewrite fold_left_app. Qed.

(** After a run of frames the static holds [hud_screen] exactly when the HUD
    screen has been seen and only overlays since. *)
Lemma static_hud_iff (screens : list string) :
  static_after None screens = Some "hud_screen"%string
  <-> exists pre post,
        screens = pre ++ "hud_screen"%string :: post /\ Forall overlay post.
Proof.
  induction screens as [|current screens IH] using rev_ind.
  - split; [done|]. intros (pre & post & Heq & _). by destruct pre.
  - rewrite static_after_snoc, gate_static_hud. split.
    + intros [->|[Hov Hst]].
      * exists screens, []. by split.
      * apply IH in Hst as (pre & post & -> & Hpost).
        exists pre, (post ++ [current]). rewrite <- app_assoc. split; [done|].
        apply Forall_app. by split; [|constructor].
    + intros (pre & post & Heq & Hpost).
      destruct post as [|p post _] using rev_ind.
      * apply app_inj_tail in Heq as [_ ->]. by left.
      * rewrite app_comm_cons, app_assoc in Heq.
        apply app_inj_tail in Heq as [-> ->].
        apply Forall_app in Hpost as [Hpost Hp].
        right. split; [by inversion Hp|]. apply IH. eauto.
Qed.

Lemma drawn_iff_hud_since (screens : list string) (current : string) :
  outcome_after screens current = window_drawn
  <-> exists pre post,
        screens ++ [current] = pre ++ "hud_screen"%string :: post
        /\ Forall overlay post.
Proof.
  unfold outcome_after.
  by rewrite gate_drawn_iff, <- static_after_snoc, static_hud_iff.
Qed.

Lemma hud_not_overlay : ~ overlay "hud_screen"%string.
Proof. by intros [?|?]. Qed.

Lemma no_hud_behind (other : string) (tail post : list string) :
  other <> "hud_screen"%string -> ~ overlay other ->
  Forall overlay tail -> Forall overlay post ->
  forall screens pre,
    screens ++ other :: tail <> pre ++ "hud_screen"%string :: post.
Proof.
  intros Hhud Hother Htail Hpost.
  induction screens as [|s screens IH]; intros [|x pre]; simpl.
  - by intros [= ? _].
  - intros [= _ ->]. apply Forall_app in Htail as [_ Htail].
    inversion Htail as [|? ? Hov _]. by apply hud_not_overlay.
  - intros [= _ <-]. apply Forall_app in Hpost as [_ Hpost].
    by inversion Hpost.
  - intros [= _ Heq]. by apply (IH pre).
Qed.

(** X13: counting from the first call, [on_render] builds the window on a
    frame exactly when the HUD screen has been seen, on this frame or
    before, and every screen since is a toast or debug screen; on every
    other frame it calls [set_enabled(false)] and returns. *)
Theorem window_drawn_iff (screens : list string) (current : string) :
  outcome_after screens current = window_drawn
  <-> exists pre post,
        screens ++ [current] = pre ++ "hud_screen"%string :: post
        /\ Forall overlay post.
Proof. apply drawn_iff_hud_since. Qed.

(** X14: once a screen that is neither the HUD nor an overlay has been
    shown, toast and debug screens no longer keep the window: it stays away
    until the HUD screen itself comes back. *)
Theorem hidden_until_hud (screens : list string) (other : string)
    (overlays : list string) (current : string) :
  other <> "hud_screen"%string -> ~ overlay other ->
  Forall overlay (overlays ++ [current]) ->
  outcome_after (screens ++ other :: overlays) current
  = disabled_and_returned.
Proof.
  intros Hhud Hother Hov.
  destruct (outcome_after _ _) eqn:Hout; [done|].
  apply drawn_iff_hud_since in Hout as (pre & post & Heq & Hpost).
  rewrite <- app_assoc in Heq. simpl in Heq.
  by apply no_hud_behind in Heq.
Qed.

End ClickGui.

(** ** IEEE binary32 and sample frames *)

(** C++ [float] on the target: binary32, 24 bits of precision, [emax] 128,
    through the Standard Library's specification of IEEE arithmetic. *)
Definition float_trunc (f : SpecFloat.spec_float) : Z :=
  match f with
  | SpecFloat.S754_finite s m e =>
      let v := match e with
               | Zneg p => Z.shiftr (Zpos m) (Zpos p)
               | _ => Z.shiftl (Zpos m) e
               end in
      if s then - v else v
  | _ => 0
  end.

Definition binary32_type : FloatType := SpecFloat.spec_float.

#[local] Existing Instance binary32_type.

Definition binary32 : Float32 := {|
  fdiv := SpecFloat.SFdiv 24 128;
  fadd := SpecFloat.SFadd 24 128;
  f_zero := SpecFloat.S754_zero false;
  f_one := SpecFloat.SFone 24 128;
  float_to_ImU32 := float_trunc
|}.

#[local] Existing Instance binary32.

Definition float_of_Z (z : Z) : float :=
  SpecFloat.binary_normalize 24 128 z 0 false.

(** The blob size is an [int] product: a 32768 x 32768 atlas at four bytes a
    pixel is logged with size 0. *)
Example large_atlas_blob_size :
  int_wrap (int_wrap (32768 * 32768) * 4) = 0
  /\ int_wrap (int_wrap (512 * 64) * 4) = 131072.
Proof. by vm_compute. Qed.

(** Vertex [k] of the samples: position [(4k, 4k + 2)], UV [(k, k + 1)]. *)
Definition sample_vertex (k : Z) : ImDrawVert :=
  mkImDrawVert (mkImVec2 (float_of_Z (4 * k)) (float_of_Z (4 * k + 2)))
               (mkImVec2 (float_of_Z k) (float_of_Z (k + 1)))
               (4278190080 + k).

Definition sample_ctx : MinecraftUIRenderContext :=
  mkCtx (mkImVec2 (float_of_Z 1920) (float_of_Z 1080)) (float_of_Z 2)
        (fun _ _ => mkTexturePtr (Some 7)).

Definition sample_atlas : ImFontAtlas :=
  mkImFontAtlas [255; 255; 255; 255] 1 1 false.

(** A world whose texture is loaded (handle 3) and whose flag is clear. *)
Definition world_loaded : World :=
  mkWorld false (mkTexturePtr (Some 3))
          (mkImVec2 (float_of_Z 0) (float_of_Z 0)) sample_atlas
          false false [] [].

(** The same world with the flag set. *)
Definition world_stale : World := with_textures_unloaded true world_loaded.


(** One list, one command, one triangle. *)
Definition one_triangle : ImDrawData :=
  mkImDrawData 1
    [mkImDrawList [mkImDrawCmd 3 0] [0; 1; 2]
                  (sample_vertex <$> [0; 1; 2])].

(** One list of two triangles, split into two commands. *)
Definition two_commands : ImDrawData :=
  mkImDrawData 1
    [mkImDrawList [mkImDrawCmd 3 0; mkImDrawCmd 3 3] [0; 1; 2; 3; 4; 5]
                  (sample_vertex <$> [0; 1; 2; 3; 4; 5])].

(** The vertices a frame would emit if every command read the index range it
    names: per command, its source triplets with the winding reversed. *)
Definition source_vertices (data : ImDrawData) : list ImDrawVert :=
  lc ← source_commands data;
  t ← default [] (read_all (reversed_triangle (VtxBuffer lc.1))
                           (source_triplets lc.1 lc.2));
  triangle_vertices t.

(** ** The properties on the sample frames *)

(** A command whose range starts the index buffer is read as the claim of
    reversed winding has it: its own triplets, last index first. *)
Lemma first_range_winding (cmd_list : ImDrawList) (cmd : ImDrawCmd) :
  Z.of_nat (length (IdxBuffer cmd_list)) < 2 ^ 32 ->
  cmd_ok cmd_list cmd = true -> IdxOffset cmd = 0 ->
  cmd_triangles cmd_list cmd
  = read_all (reversed_triangle (VtxBuffer cmd_list))
             (source_triplets cmd_list cmd).
Proof.
  intros Hlen Hcmd Hoff. rewrite cmd_triangles_leading by done.
  unfold leading_triplets, source_triplets. by rewrite Hoff.
Qed.

(** The scenario of one list with one command of three indices [0, 1, 2] at
    scale 2.0: one batch, vertices 2, 1, 0, positions halved, UVs as they
    are. *)
Example one_triangle_scenario :
  calls <$> exec (render_draw_data one_triangle sample_ctx) world_loaded
  = Some
      [tess_begin TriangleList 0;
       tess_color 4278190082;
       tess_vertexUV (float_of_Z 4) (float_of_Z 5) f_zero
                     (float_of_Z 2) (float_of_Z 3);
       tess_color 4278190081;
       tess_vertexUV (float_of_Z 2) (float_of_Z 3) f_zero
                     (float_of_Z 1) (float_of_Z 2);
       tess_color 4278190080;
       tess_vertexUV (float_of_Z 0) (float_of_Z 1) f_zero
                     (float_of_Z 0) (float_of_Z 1);
       createMaterial "ui_texture_and_color_blur"%string;
       renderMeshImmediately "ui_texture_and_color_blur"%string 3].
Proof. by vm_compute. Qed.

(** C2: on a stale world, [set_textures_unloaded] then a frame of one
    triangle: no upload and no handle fetch happen, the batch is built and
    flushed with the old handle 3, and the flag ends clear. *)
Theorem mark_then_submit_loads_nothing :
  exists w',
    exec (set_textures_unloaded;; render_draw_data one_triangle sample_ctx)
         world_stale = Some w' /\
    count is_upload (calls w') = 0%nat /\
    count is_texture_call (calls w') = 1%nat /\
    List.filter is_texture_call (calls w')
    = [renderMeshImmediately "ui_texture_and_color_blur"%string 3] /\
    count is_tessellator_call (calls w') = 7%nat /\
    textures_unloaded w' = false.
Proof. eexists. split; [vm_compute; reflexivity|]. by vm_compute. Qed.

(** C3: one list of two triangles split into two commands (index ranges
    [0..2] and [3..5]): both batches carry vertices 2, 1, 0; the triplet
    (3, 4, 5) of the second command is never emitted. *)
Theorem second_command_repeats_first :
  exists w',
    exec (render_draw_data two_commands sample_ctx) world_loaded = Some w' /\
    omap vertex_of_call (calls w')
    = scaled (float_of_Z 2) <$> (sample_vertex <$> [2; 1; 0; 2; 1; 0]) /\
    read_vertices two_commands = sample_vertex <$> [2; 1; 0; 2; 1; 0] /\
    source_vertices two_commands = sample_vertex <$> [2; 1; 0; 5; 4; 3].
Proof. eexists. split; [vm_compute; reflexivity|]. by vm_compute. Qed.

(** C4, as stated, fails: two [load_fonts] calls in succession, nothing in
    between, upload twice. *)
Lemma load_fonts_twice_uploads_twice :
  uploads_during (load_fonts sample_ctx;; load_fonts sample_ctx) world_loaded
  = Some 2%nat.
Proof. by vm_compute. Qed.


Lemma emitted_vertices_scaled_witness :
  input_ok one_triangle sample_ctx world_loaded = true /\
  exists w' new,
    render_draw_data one_triangle sample_ctx world_loaded = Some (tt, w') /\
    calls w' = calls world_loaded ++ new /\
    omap vertex_of_call new
    = scaled (getGuiScale sample_ctx) <$> read_vertices one_triangle /\
    Forall (fun sv => exists l, l ∈ visited_lists one_triangle
                                /\ sv ∈ VtxBuffer l)
           (read_vertices one_triangle).
Proof.
  split; [vm_compute; reflexivity|].
  apply (emitted_vertices_scaled one_triangle sample_ctx world_loaded).
  vm_compute; reflexivity.
Defined.

Lemma stale_texture_refreshed_first_witness :
  textures_unloaded world_stale = true /\
  input_ok two_commands sample_ctx world_stale = true /\
  exists w' geometry,
    render_draw_data two_commands sample_ctx world_stale = Some (tt, w') /\
    calls w' = calls world_stale ++ load_fonts_calls (Fonts world_stale)
                 ++ geometry /\
    count is_upload (load_fonts_calls (Fonts world_stale)) = 1%nat /\
    Forall (fun c => is_geometry c = false)
           (load_fonts_calls (Fonts world_stale)) /\
    Forall (fun c => is_geometry c = true) geometry /\
    textures_unloaded w' = false /\
    texturePtr w' = ctx_getTexture sample_ctx "imgui_font"%string false.
Proof.
  split; [reflexivity|]. split; [vm_compute; reflexivity|].
  apply (stale_texture_refreshed_first two_commands sample_ctx world_stale).
  - reflexivity.
  - vm_compute; reflexivity.
Defined.

Lemma one_flush_per_command_witness :
  input_ok two_commands sample_ctx world_loaded = true /\
  exists w' client new,
    render_draw_data two_commands sample_ctx world_loaded = Some (tt, w') /\
    calls w' = calls (refreshed sample_ctx world_loaded) ++ new /\
    split_batches [] new
    = code_batch (getGuiScale sample_ctx) client
        <$> source_commands two_commands /\
    count is_flush new = length (source_commands two_commands) /\
    count is_begin new = length (source_commands two_commands).
Proof.
  split; [vm_compute; reflexivity|].
  apply (one_flush_per_command two_commands sample_ctx world_loaded).
  vm_compute; reflexivity.
Defined.


(** ** The further properties on the sample frames *)

(** The world a computation ends in, the starting world if it is undefined. *)
Definition after (m : M unit) (w : World) : World := default w (exec m w).

(** A list whose only command counts four elements over six indices. *)
Definition ragged_list : ImDrawList :=
  mkImDrawList [mkImDrawCmd 4 0] [0; 1; 2; 3; 4; 5]
               (sample_vertex <$> [0; 1; 2; 3; 4; 5]).

(** A negative list count over a collection that is not empty. *)
Definition negative_count : ImDrawData :=
  mkImDrawData (-1) [ragged_list].

Definition sample_rect : ImVec2 * ImVec2 * vec4 :=
  (mkImVec2 (float_of_Z 1) (float_of_Z 2),
   mkImVec2 (float_of_Z 3) (float_of_Z 4),
   mkVec4 (float_of_Z 255) (float_of_Z 128) (float_of_Z 0) (float_of_Z 255)).

(** A session: initialisation, an unload notification, then frames and a
    rectangle. *)
Definition sample_session : list Op :=
  [op_initialize_imgui sample_ctx; op_set_textures_unloaded;
   op_new_frame sample_ctx; op_render_draw_data one_triangle sample_ctx;
   op_draw_rect sample_rect.1.1 sample_rect.1.2 sample_rect.2
                (float_of_Z 1) (float_of_Z 0);
   op_set_textures_unloaded; op_render_draw_data two_commands sample_ctx].

(** The same session without its initialisation. *)
Definition sample_frames : list Op := tail sample_session.

Lemma frame_leaves_flag_clear_witness :
  let w' := after (render_draw_data two_commands sample_ctx) world_stale in
  render_draw_data two_commands sample_ctx world_stale = Some (tt, w') /\
  textures_unloaded w' = false /\
  count is_upload (calls w')
  = (count is_upload (calls world_stale)
     + (if textures_unloaded world_stale then 1 else 0))%nat /\
  DisplaySize w' = DisplaySize world_stale /\
  background w' = background world_stale /\
  AntiAliasedLines w' = AntiAliasedLines world_stale /\
  AntiAliasedFill w' = AntiAliasedFill world_stale.
Proof.
  split; [vm_compute; reflexivity|].
  apply (frame_leaves_flag_clear two_commands sample_ctx world_stale).
  vm_compute; reflexivity.
Defined.

Lemma flushes_bind_texture_in_use_witness :
  input_ok two_commands sample_ctx world_stale = true /\
  exists w' client new,
    render_draw_data two_commands sample_ctx world_stale = Some (tt, w') /\
    calls w' = calls (refreshed sample_ctx world_stale) ++ new /\
    mClientTexture (texture_in_use sample_ctx world_stale) = Some client /\
    List.filter is_flush new
    = replicate (length (source_commands two_commands))
        (renderMeshImmediately "ui_texture_and_color_blur"%string client).
Proof.
  split; [vm_compute; reflexivity|].
  apply (flushes_bind_texture_in_use two_commands sample_ctx world_stale).
  vm_compute; reflexivity.
Defined.

Lemma frame_emits_every_element_witness :
  input_ok two_commands sample_ctx world_loaded = true /\
  exists w' new,
    render_draw_data two_commands sample_ctx world_loaded = Some (tt, w') /\
    calls w' = calls (refreshed sample_ctx world_loaded) ++ new /\
    Z.of_nat (count is_vertex new) = total_elements two_commands /\
    count is_color new = count is_vertex new.
Proof.
  split; [vm_compute; reflexivity|].
  apply (frame_emits_every_element two_commands sample_ctx world_loaded).
  vm_compute; reflexivity.
Defined.

Lemma element_count_rounded_up_witness :
  let cmd := mkImDrawCmd 4 0 in
  let w' := after (render_cmd (float_of_Z 2) ragged_list cmd) world_loaded in
  0 <= ElemCount cmd < 2 ^ 32 /\
  render_cmd (float_of_Z 2) ragged_list cmd world_loaded = Some (tt, w') /\
  exists new,
    calls w' = calls world_loaded ++ new /\
    Z.of_nat (count is_vertex new) = 3 * ((ElemCount cmd + 2) / 3).
Proof.
  split; [simpl; lia|]. split; [vm_compute; reflexivity|].
  apply (element_count_rounded_up (float_of_Z 2) ragged_list
           (mkImDrawCmd 4 0) world_loaded).
  - simpl; lia.
  - vm_compute; reflexivity.
Defined.

Lemma commands_emit_leading_triplets_witness :
  input_ok two_commands sample_ctx world_loaded = true /\
  exists w' new,
    render_draw_data two_commands sample_ctx world_loaded = Some (tt, w') /\
    calls w' = calls (refreshed sample_ctx world_loaded) ++ new /\
    omap vertex_of_call new
    = scaled (getGuiScale sample_ctx) <$> leading_vertices two_commands.
Proof.
  split; [vm_compute; reflexivity|].
  apply (commands_emit_leading_triplets two_commands sample_ctx world_loaded).
  vm_compute; reflexivity.
Defined.

Lemma zero_offset_commands_match_source_witness :
  input_ok one_triangle sample_ctx world_loaded = true /\
  Forall (fun lc => IdxOffset lc.2 = 0) (source_commands one_triangle) /\
  exists w' new,
    render_draw_data one_triangle sample_ctx world_loaded = Some (tt, w') /\
    calls w' = calls (refreshed sample_ctx world_loaded) ++ new /\
    omap vertex_of_call new
    = scaled (getGuiScale sample_ctx) <$> named_range_vertices one_triangle.
Proof.
  split; [vm_compute; reflexivity|].
  split; [repeat constructor|].
  apply (zero_offset_commands_match_source one_triangle sample_ctx
           world_loaded).
  - vm_compute; reflexivity.
  - repeat constructor.
Defined.

Lemma negative_count_visits_nothing_witness :
  CmdListsCount negative_count < 0 /\
  render_draw_data negative_count sample_ctx world_stale
  = Some (tt, refreshed sample_ctx world_stale).
Proof.
  split; [simpl; lia|].
  apply (negative_count_visits_nothing negative_count sample_ctx world_stale).
  simpl; lia.
Defined.

Lemma flag_stays_clear_witness :
  let w' := after (for_each sample_session run_op) world_loaded in
  for_each sample_session run_op world_loaded = Some (tt, w') /\
  textures_unloaded world_loaded = false /\
  textures_unloaded w' = false.
Proof.
  split; [vm_compute; reflexivity|]. split; [reflexivity|].
  apply (flag_stays_clear sample_session world_loaded).
  - vm_compute; reflexivity.
  - reflexivity.
Defined.

Lemma no_reupload_once_clear_witness :
  let w' := after (for_each sample_frames run_op) world_loaded in
  forallb (fun o => negb (loads_unconditionally o)) sample_frames = true /\
  for_each sample_frames run_op world_loaded = Some (tt, w') /\
  textures_unloaded world_loaded = false /\
  count is_upload (calls w') = count is_upload (calls world_loaded) /\
  texturePtr w' = texturePtr world_loaded.
Proof.
  split; [reflexivity|]. split; [vm_compute; reflexivity|].
  split; [reflexivity|].
  apply (no_reupload_once_clear sample_frames world_loaded).
  - reflexivity.
  - vm_compute; reflexivity.
  - reflexivity.
Defined.

Lemma initialize_then_frame_witness :
  data_ok two_commands = true /\
  mClientTexture (ctx_getTexture sample_ctx "imgui_font"%string false)
  = Some 7 /\
  exists w1 w' new,
    initialize_imgui sample_ctx world_stale = Some (true, w1) /\
    AntiAliasedLines w1 = true /\ AntiAliasedFill w1 = true /\
    textures_unloaded w1 = false /\
    calls w1 = calls world_stale ++ load_fonts_calls (Fonts world_stale) /\
    render_draw_data two_commands sample_ctx w1 = Some (tt, w') /\
    calls w' = calls w1 ++ new /\
    count is_upload (calls w')
    = (count is_upload (calls world_stale) + 1)%nat /\
    List.filter is_flush new
    = replicate (length (source_commands two_commands))
        (renderMeshImmediately "ui_texture_and_color_blur"%string 7).
Proof.
  split; [vm_compute; reflexivity|]. split; [reflexivity|].
  apply (initialize_then_frame two_commands sample_ctx world_stale 7).
  - vm_compute; reflexivity.
  - reflexivity.
Defined.

Lemma hidden_until_hud_witness :
  "pause_screen"%string <> "hud_screen"%string /\
  ~ ClickGui.overlay "pause_screen"%string /\
  Forall ClickGui.overlay (["toast_screen"%string] ++ ["debug_screen"%string]) /\
  ClickGui.outcome_after
    (["hud_screen"%string] ++ "pause_screen"%string :: ["toast_screen"%string])
    "debug_screen"%string
  = ClickGui.disabled_and_returned.
Proof.
  assert ("pause_screen"%string <> "hud_screen"%string) as H1
    by discriminate.
  assert (~ ClickGui.overlay "pause_screen"%string) as H2
    by (intros [?|?]; discriminate).
  assert (Forall ClickGui.overlay
            (["toast_screen"%string] ++ ["debug_screen"%string])) as H3
    by (simpl; constructor; [by left|]; constructor; [by right|constructor]).
  split; [exact H1|]. split; [exact H2|]. split; [exact H3|].
  exact (ClickGui.hidden_until_hud ["hud_screen"%string] "pause_screen"
           ["toast_screen"%string] "debug_screen" H1 H2 H3).
Defined.

Lemma colour_precedes_each_vertex_witness :
  input_ok one_triangle sample_ctx world_loaded = true /\
  exists w' new,
    render_draw_data one_triangle sample_ctx world_loaded = Some (tt, w') /\
    calls w' = calls (refreshed sample_ctx world_loaded) ++ new /\
    List.filter is_vertex_or_color new
    = sv ← read_vertices one_triangle;
      [tess_color (col sv);
       tess_vertexUV (fdiv (vx (pos sv)) (getGuiScale sample_ctx))
                     (fdiv (vy (pos sv)) (getGuiScale sample_ctx)) f_zero
                     (vx (uv sv)) (vy (uv sv))].
Proof.
  split; [vm_compute; reflexivity|].
  apply (colour_precedes_each_vertex one_triangle sample_ctx world_loaded).
  vm_compute; reflexivity.
Defined.

Lemma frames_are_repeatable_witness :
  input_ok two_commands sample_ctx world_stale = true /\
  exists w1 w2 new,
    render_draw_data two_commands sample_ctx world_stale = Some (tt, w1) /\
    render_draw_data two_commands sample_ctx w1 = Some (tt, w2) /\
    calls w1 = calls (refreshed sample_ctx world_stale) ++ new /\
    calls w2 = calls w1 ++ new.
Proof.
  split; [vm_compute; reflexivity|].
  apply (frames_are_repeatable two_commands sample_ctx world_stale).
  vm_compute; reflexivity.
Defined.
